(** * SynRD synthesizer adapters (src/SynRD/synthesizers/synthesizer.py)

    A shallow embedding of the adapter classes [Synthesizer], [MSTSynthesizer],
    [PATECTGAN], [PrivBayes], [PacSynth], [AIMTSynthesizer], [AIMSynthesizer]
    and [GEMSynthesizer].

    - Python values passed as constructor arguments are [pyval]; [bool] is a
      subclass of [int] in Python and [isinstance] is modelled accordingly.
    - Python and numpy [float]s are Rocq's primitive binary64 floats, so
      rounding is the one the program performs.
    - A pandas column is an [int64] column (Z with wrap-around) or a
      [float64] column; a data frame is a list of named columns.
    - Raised exceptions are [Err] with the Python exception class and its
      message.
    - The wrapped mechanisms (smartnoise, DataSynthesizer, the GEM table
      transformer and generator) are not part of this repository: their
      observable behaviour is an explicit input, and the calls the adapters
      make to them are returned as a list of [call] events. *)

From Stdlib Require Import ZArith QArith List String Bool Lia Floats.
Import ListNotations.

Open Scope string_scope.
Open Scope Z_scope.
#[local] Set Warnings "-inexact-float".

(** ** Python values, exceptions and results *)

Inductive pyval : Type :=
| PyNone
| PyBool (b : bool)
| PyInt (z : Z)
| PyFloat (f : float)
| PyStr (s : string)
| PyObj.
Arguments PyFloat f%_float.

Inductive exc : Type :=
| ValueError
| TypeError
| AttributeError
| AssertionError
| OverflowError
| FileNotFoundError
| IntCastingNaNError
| IndexError.

Inductive result (A : Type) : Type :=
| Ok (a : A)
| Err (e : exc) (msg : string).
Arguments Ok {A} a.
Arguments Err {A} e msg.

Definition bind {A B} (m : result A) (k : A -> result B) : result B :=
  match m with
  | Ok a => k a
  | Err e s => Err e s
  end.

Notation "'let*' x := m 'in' k" := (bind m (fun x => k))
  (at level 200, x name, m at level 100, k at level 200).
Notation "'let*' ' p := m 'in' k" := (bind m (fun x => match x with p => k end))
  (at level 200, p pattern, m at level 100, k at level 200).

Definition is_ok {A} (r : result A) : bool :=
  match r with Ok _ => true | Err _ _ => false end.

Definition raised {A} (r : result A) : option exc :=
  match r with Ok _ => None | Err e _ => Some e end.

(** ** Numbers *)

Definition two63 : Z := 9223372036854775808.

(** numpy [int64] arithmetic wraps around. *)
Definition wrap64 (z : Z) : Z := (z + two63) mod (2 * two63) - two63.

(** Correctly rounded conversion of an integer to binary64 (what CPython's
    [float(int)] and numpy's [int64 -> float64] do); [None] when the result
    overflows, where [float(int)] raises [OverflowError]. *)
Definition float_of_Z_opt (z : Z) : option float :=
  match binary_normalize FloatOps.prec FloatOps.emax z 0 false with
  | S754_infinity _ => None
  | sf => Some (SF2Prim sf)
  end.

Definition float_of_Z (z : Z) : float :=
  match float_of_Z_opt z with Some f => f | None => PrimFloat.infinity end.

Definition float_of_nat (n : nat) : float := float_of_Z (Z.of_nat n).

(** ** Data frames *)

Inductive column : Type :=
| IntCol (xs : list Z)
| FloatCol (xs : list float).


Inductive scalar : Type :=
| SInt (z : Z)
| SFloat (f : float).
Arguments SFloat f%_float.

Definition dataset : Type := list (string * column).

Definition columns (df : dataset) : list string := map fst df.

(** The range transform: a Python [dict] from column name to the subtracted
    minimum; [transform[c] = v] puts the newest binding first. *)
Definition transform : Type := list (string * scalar).

Fixpoint lookup {A} (k : string) (m : list (string * A)) : option A :=
  match m with
  | [] => None
  | (k', v) :: m' => if String.eqb k k' then Some v else lookup k m'
  end.

(** Python's builtin [min] over an iterable: the first element, replaced by
    every later element that compares [<] to the current one. *)
Definition py_min {A} (lt : A -> A -> bool) (xs : list A) : result A :=
  match xs with
  | [] => Err ValueError "min() arg is an empty sequence"
  | x :: r => Ok (fold_left (fun cur y => if lt y cur then y else cur) r x)
  end.

Definition col_min (c : column) : result scalar :=
  match c with
  | IntCol xs => let* m := py_min Z.ltb xs in Ok (SInt m)
  | FloatCol xs => let* m := py_min PrimFloat.ltb xs in Ok (SFloat m)
  end.

(** [min(df[c]) > 0] *)
Definition scalar_pos (s : scalar) : bool :=
  match s with
  | SInt z => 0 <? z
  | SFloat f => PrimFloat.ltb PrimFloat.zero f
  end.

(** Element-wise [df[c] - s] and [df[c] + s] as pandas computes them: int64
    with int64 wraps, any float operand makes a float64 column. *)
Definition col_arith (zop : Z -> Z -> Z) (fop : float -> float -> float)
  (c : column) (s : scalar) : column :=
  match c, s with
  | IntCol xs, SInt m => IntCol (map (fun x => wrap64 (zop x m)) xs)
  | IntCol xs, SFloat m => FloatCol (map (fun x => fop (float_of_Z x) m) xs)
  | FloatCol xs, SInt m => FloatCol (map (fun x => fop x (float_of_Z m)) xs)
  | FloatCol xs, SFloat m => FloatCol (map (fun x => fop x m) xs)
  end.

Definition col_sub := col_arith Z.sub PrimFloat.sub.
Definition col_add := col_arith Z.add PrimFloat.add.

(** [Synthesizer.slide_range_forward]: the loop over [df.columns], writing
    each shifted column back and accumulating [transform].  The source
    evaluates [min(df[c])] again for the subtraction, on the column it has
    not yet changed, so the value is [m]. *)
Fixpoint slide_forward_loop (df : dataset) (tr : transform)
  : result (dataset * transform) :=
  match df with
  | [] => Ok ([], tr)
  | (c, col) :: rest =>
      let* m := col_min col in
      if scalar_pos m then
        let* ' (rest', tr') := slide_forward_loop rest ((c, m) :: tr) in
        Ok ((c, col_sub col m) :: rest', tr')
      else
        let* ' (rest', tr') := slide_forward_loop rest tr in
        Ok ((c, col) :: rest', tr')
  end.

Definition slide_range_forward (df : dataset) : result (dataset * transform) :=
  slide_forward_loop df [].

(** [Synthesizer.slide_range_backward] *)
Definition slide_range_backward (df : dataset) (tr : transform) : dataset :=
  map (fun '(c, col) =>
         match lookup c tr with
         | Some m => (c, col_add col m)
         | None => (c, col)
         end) df.

(** A value an [int64] column can hold. *)
Definition int64_ok (z : Z) : bool := (- two63 <=? z) && (z <? two63).

Definition int64_column (col : column) : bool :=
  match col with
  | IntCol xs => forallb int64_ok xs
  | FloatCol _ => false
  end.

(** What one round trip does to one column: [(x - m) + m] in the column's
    own arithmetic when the minimum [m] is positive, nothing otherwise. *)
Definition roundtrip_column (col : column) : column :=
  match col_min col with
  | Ok m => if scalar_pos m then col_add (col_sub col m) m else col
  | Err _ _ => col
  end.

(** ** Adapter objects and their constructors *)

Inductive variant : Type :=
| MSTSynthesizer
| PATECTGAN
| PrivBayes
| PacSynth
| AIMTSynthesizer
| AIMSynthesizer
| GEMSynthesizer.

Inductive pytype : Type := TBool | TInt | TFloat | TStr.

Definition pytype_eqb (a b : pytype) : bool :=
  match a, b with
  | TBool, TBool | TInt, TInt | TFloat, TFloat | TStr, TStr => true
  | _, _ => false
  end.

Definition type_name (v : pyval) : string :=
  match v with
  | PyNone => "NoneType" | PyBool _ => "bool" | PyInt _ => "int"
  | PyFloat _ => "float" | PyStr _ => "str" | PyObj => "object"
  end.

Definition pytype_name (t : pytype) : string :=
  match t with TBool => "bool" | TInt => "int" | TFloat => "float" | TStr => "str" end.

(** [isinstance(v, t)]; [bool] is a subclass of [int]. *)
Definition isinstance (v : pyval) (t : pytype) : bool :=
  match v, t with
  | PyBool _, (TBool | TInt) => true
  | PyInt _, TInt => true
  | PyFloat _, TFloat => true
  | PyStr _, TStr => true
  | _, _ => false
  end.

(** [float(v)] for an [int] (or [bool]) or a [float]. *)
Definition py_float (v : pyval) : result float :=
  match v with
  | PyBool b => Ok (if b then PrimFloat.one else PrimFloat.zero)
  | PyInt z =>
      match float_of_Z_opt z with
      | Some f => Ok f
      | None => Err OverflowError "int too large to convert to float"
      end
  | PyFloat f => Ok f
  | _ => Err TypeError "float() argument must be a string or a real number"
  end.

(** The body of the [param_defaults] loops: [None] gives the default, an
    [int] given for a [float] option goes through [float()], and the value
    must then be an instance of the declared type. *)
Definition coerce_option (param : string) (v default : pyval) (t : pytype)
  : result pyval :=
  match v with
  | PyNone => Ok default
  | _ =>
      let* v := if isinstance v TInt && pytype_eqb t TFloat
                then let* f := py_float v in Ok (PyFloat f)
                else Ok v in
      if isinstance v t then Ok v
      else Err TypeError (param ++ " must be of type " ++ pytype_name t
                          ++ ", got " ++ type_name v ++ ".")
  end.

(** [PATECTGAN] and [AIMSynthesizer] write the same steps out for their one
    [float] option; [AIMSynthesizer]'s message names [preprocess_factor]. *)
Definition coerce_float_option (msg_name : string) (v default : pyval)
  : result pyval :=
  match v with
  | PyNone => Ok default
  | _ =>
      let* v := if isinstance v TInt then let* f := py_float v in Ok (PyFloat f)
                else Ok v in
      if isinstance v TFloat then Ok v
      else Err TypeError (msg_name ++ " must be of type float, got "
                          ++ type_name v ++ ".")
  end.

(** An object's attributes, as [setattr] leaves them. *)
Definition attributes : Type := list (string * pyval).

(** A declared option: name, default and type ([param_defaults]). *)
Definition option_decl : Type := string * (pyval * pytype).

(** [locals().get(param)]: the value bound to a named parameter. *)
Definition arg (kwargs : list (string * pyval)) (p : string) : pyval :=
  match lookup p kwargs with Some v => v | None => PyNone end.

(** The [for param, (default_value, param_type) in param_defaults.items()]
    loop, run on the named arguments [kwargs]. *)
Fixpoint set_options (decls : list option_decl) (kwargs : list (string * pyval))
  : result attributes :=
  match decls with
  | [] => Ok []
  | (p, (d, t)) :: rest =>
      let* v := coerce_option p (arg kwargs p) d t in
      let* attrs := set_options rest kwargs in
      Ok ((p, v) :: attrs)
  end.

Definition not_available (p : string) : string :=
  "Parameter '" ++ p ++ "' is not available for this type of synthesizer.".

(** [for param in kwargs.keys(): if param not in allowed: raise ValueError] *)
Definition check_allowed (allowed : list string) (kwargs : list (string * pyval))
  : result unit :=
  match find (fun '(p, _) => negb (existsb (String.eqb p) allowed)) kwargs with
  | Some (p, _) => Err ValueError (not_available p)
  | None => Ok tt
  end.

(** The state of an adapter object.  [G] is [GEMSynthesizer]'s trained
    generator, given by what [get_syndata] returns; [None] while the
    attribute has never been assigned. *)
Record adapter : Type := mk_adapter {
  kind : variant;
  epsilon : float;
  attrs : attributes;
  range_transform : option transform;
  G : option (nat -> dataset)
}.

Definition getattr (st : adapter) (p : string) : option pyval := lookup p (attrs st).

Definition base_params : list string := ["epsilon"; "slide_range"; "thresh"].

Definition base_options : list option_decl :=
  [("slide_range", (PyBool false, TBool)); ("thresh", (PyFloat 0.05, TFloat))].

(** [Synthesizer.__init__(epsilon, slide_range, thresh, **kwargs)]. *)
Definition synthesizer_init (v : variant) (epsilon slide_range thresh : pyval)
  (kwargs : list (string * pyval)) : result adapter :=
  match epsilon with
  | PyNone => Err ValueError "Epsilon is a required parameter for Synthesizer."
  | _ =>
      if negb (isinstance epsilon TInt || isinstance epsilon TFloat) then
        Err TypeError ("Epsilon must be of type int or float, got "
                       ++ type_name epsilon ++ ".")
      else
        let* eps := py_float epsilon in
        let* _ := check_allowed base_params kwargs in
        let* attrs := set_options base_options
                        [("slide_range", slide_range); ("thresh", thresh)] in
        Ok (mk_adapter v eps attrs None None)
  end.

(** The named parameters of each [__init__] after [epsilon, slide_range,
    thresh]; every other keyword lands in [**synth_kwargs]. *)
Definition init_params (v : variant) : list string :=
  match v with
  | MSTSynthesizer => ["preprocess_factor"; "delta"; "verbose"]
  | PATECTGAN => ["preprocess_factor"]
  | PrivBayes => ["privbayes_limit"; "privbayes_bins"; "temp_files_dir"; "seed"]
  | PacSynth | AIMTSynthesizer => []
  | AIMSynthesizer => ["rounds_factor"]
  | GEMSynthesizer => ["k"; "T"; "recycle"; "verbose"]
  end.

(** [allowed_additional_params] ([PacSynth] and [AIMTSynthesizer] have
    none: they hand [**synth_kwargs] to [Synthesizer.__init__]). *)
Definition allowed_additional (v : variant) : list string :=
  match v with
  | MSTSynthesizer => ["preprocess_factor"; "delta"; "verbose"]
  | PATECTGAN => ["preprocess_factor"]
  | PrivBayes => ["privbayes_limit"; "privbayes_bins"; "temp_files_dir"; "seed"]
  | PacSynth | AIMTSynthesizer => []
  | AIMSynthesizer => ["rounds_factor"]
  | GEMSynthesizer => ["k"; "T"; "recycle"; "verbose"]
  end.

(** The [param_defaults] tables of the subclasses that have one. *)
Definition variant_options (v : variant) : list option_decl :=
  match v with
  | MSTSynthesizer =>
      [("preprocess_factor", (PyFloat 0.05, TFloat));
       ("delta", (PyFloat 1e-09, TFloat));
       ("verbose", (PyBool false, TBool))]
  | PrivBayes =>
      [("privbayes_limit", (PyInt 20, TInt));
       ("privbayes_bins", (PyInt 10, TInt));
       ("temp_files_dir", (PyStr "temp", TStr));
       ("seed", (PyInt 0, TInt))]
  | GEMSynthesizer =>
      [("k", (PyInt 3, TInt));
       ("T", (PyInt 100, TInt));
       ("recycle", (PyBool true, TBool));
       ("verbose", (PyBool false, TBool))]
  | _ => []
  end.

Definition add_attrs (st : adapter) (l : attributes) : adapter :=
  mk_adapter (kind st) (epsilon st) (app (attrs st) l) (range_transform st) (G st).

(** A [str] attribute ([temp_files_dir]). *)
Definition str_attr (st : adapter) (p : string) : string :=
  match getattr st p with
  | Some (PyStr s) => s
  | _ => ""
  end.

(** [os.makedirs(path, exist_ok=True)]: the empty path is refused whatever
    the file system holds.  Its other failures depend on the file system
    (permissions, a file in the way) and are not modelled. *)
Definition os_makedirs (path : string) : result unit :=
  if String.eqb path "" then
    Err FileNotFoundError "[Errno 2] No such file or directory: ''"
  else Ok tt.

(** [V(...)] for the adapter class [v]: Python binds the keywords to
    the named parameters (absent ones are [None]) and collects the rest in
    [**kwargs] / [**synth_kwargs].  [PrivBayes.__init__] ends with
    [os.makedirs(self.temp_files_dir, exist_ok=True)], modelled by
    [os_makedirs].  Building the wrapped mechanism ([DataDescriber],
    [DataGenerator], the [smartnoise] and [mbi] synthesizers) is external
    and not modelled; it receives [**synth_kwargs], which is empty once the
    checks pass. *)
Definition construct (v : variant) (kwargs : list (string * pyval)) : result adapter :=
  if existsb (fun '(p, _) => String.eqb p "self") kwargs then
    Err TypeError "__init__() got multiple values for argument 'self'"
  else
  let named := app base_params (init_params v) in
  let extra := filter (fun '(p, _) => negb (existsb (String.eqb p) named)) kwargs in
  let a := arg kwargs in
  match v with
  | PacSynth | AIMTSynthesizer =>
      synthesizer_init v (a "epsilon") (a "slide_range") (a "thresh") extra
  | PATECTGAN =>
      let* st := synthesizer_init v (a "epsilon") (a "slide_range") (a "thresh") [] in
      let* _ := check_allowed (allowed_additional v) extra in
      let* pf := coerce_float_option "preprocess_factor" (a "preprocess_factor")
                   (PyFloat 0.05) in
      Ok (add_attrs st [("preprocess_factor", pf)])
  | AIMSynthesizer =>
      let* st := synthesizer_init v (a "epsilon") (a "slide_range") (a "thresh") [] in
      let* _ := check_allowed (allowed_additional v) extra in
      let* rf := coerce_float_option "preprocess_factor" (a "rounds_factor")
                   (PyFloat 0.1) in
      Ok (add_attrs st [("rounds_factor", rf)])
  | MSTSynthesizer | GEMSynthesizer =>
      let* st := synthesizer_init v (a "epsilon") (a "slide_range") (a "thresh") [] in
      let* _ := check_allowed (allowed_additional v) extra in
      let* opts := set_options (variant_options v) kwargs in
      Ok (add_attrs st opts)
  | PrivBayes =>
      let* st := synthesizer_init v (a "epsilon") (a "slide_range") (a "thresh") [] in
      let* _ := check_allowed (allowed_additional v) extra in
      let* opts := set_options (variant_options v) kwargs in
      let st := add_attrs st opts in
      let* _ := os_makedirs (str_attr st "temp_files_dir") in
      Ok st
  end.

(** The options each class declares after the base ones, with default and
    type ([PATECTGAN]'s and [AIMSynthesizer]'s are written out in their
    [__init__]). *)
Definition own_options (v : variant) : list option_decl :=
  match v with
  | PATECTGAN => [("preprocess_factor", (PyFloat 0.05, TFloat))]
  | AIMSynthesizer => [("rounds_factor", (PyFloat 0.1, TFloat))]
  | _ => variant_options v
  end.

(** Every option each class declares. *)
Definition declared_options (v : variant) : list option_decl :=
  app base_options (own_options v).

(** The allow-list of each class: the base one plus its own. *)
Definition allow_list (v : variant) : list string :=
  app base_params (allowed_additional v).

(** ** Column classification *)

(** The number of distinct elements under the equality [eqb]. *)
Fixpoint distinct_count {A} (eqb : A -> A -> bool) (xs : list A) : nat :=
  match xs with
  | [] => 0
  | x :: r => if existsb (eqb x) r then distinct_count eqb r else S (distinct_count eqb r)
  end.

(** Non-null cells: NaN is pandas' null in a [float64] column; an [int64]
    column has none. *)
Definition float_notna (f : float) : bool := PrimFloat.eqb f f.

(** [df[col].nunique()]: distinct non-null values ([0.0] and [-0.0] are one
    value). *)
Definition nunique (col : column) : nat :=
  match col with
  | IntCol xs => distinct_count Z.eqb xs
  | FloatCol xs => distinct_count PrimFloat.eqb (filter float_notna xs)
  end.

(** [df[col].count()]: the number of non-null cells. *)
Definition count (col : column) : nat :=
  match col with
  | IntCol xs => List.length xs
  | FloatCol xs => List.length (filter float_notna xs)
  end.

(** [float(df[col].nunique()) / df[col].count()]: a binary64 division
    ([count] is a numpy [int64], so an all-null column gives NaN rather
    than an exception). *)
Definition distinct_ratio (col : column) : float :=
  PrimFloat.div (float_of_nat (nunique col)) (float_of_nat (count col)).

(** [Synthesizer._categorical_continuous], with [self.thresh] as [thresh]. *)
Fixpoint categorical_continuous (thresh : float) (df : dataset)
  : list string * list string :=
  match df with
  | [] => ([], [])
  | (c, col) :: rest =>
      let '(cat, con) := categorical_continuous thresh rest in
      if PrimFloat.ltb (distinct_ratio col) thresh then (c :: cat, con)
      else (cat, c :: con)
  end.

(** An attribute the constructor has set to a [float] ([thresh],
    [preprocess_factor]); [construct] never leaves another value there. *)
Definition float_attr (st : adapter) (p : string) : float :=
  match getattr st p with
  | Some (PyFloat f) => f
  | _ => PrimFloat.nan
  end.

(** [if self.slide_range]: the constructor leaves a [bool] there. *)
Definition bool_attr (st : adapter) (p : string) : bool :=
  match getattr st p with
  | Some (PyBool b) => b
  | _ => false
  end.

(** [len(self._categorical_continuous(df)["categorical"]) == len(list(df.columns))] *)
Definition categorical_check (st : adapter) (df : dataset) : bool :=
  Nat.eqb (List.length (fst (categorical_continuous (float_attr st "thresh") df)))
          (List.length (columns df)).

(** ** Fitting *)

(** Calls made to collaborators outside this repository.  What a call
    does, and whether it raises, is outside the model: [Ok (st, calls)]
    means the adapter's own code ran through and issued [calls]. *)
Inductive call : Type :=
| MechFit (mech_epsilon : float) (df : dataset) (preprocessor_eps : float)
    (** [self.synthesizer.fit(df, preprocessor_eps=...)] of a wrapped
        mechanism built with [epsilon=mech_epsilon] *)
| WriteCsv (path : string) (df : dataset)
    (** [df.to_csv(path)] *)
| DescribeCorrelated (path : string) (eps : float) (categorical : list string)
    (seed : pyval)
    (** [DataDescriber.describe_dataset_in_correlated_attribute_mode] *)
| SaveDescription (path : string)
| TransformerFit (df : dataset) (preprocessor_eps : option float)
    (** [self._transformer.fit(data, epsilon=preprocessor_eps)] *)
| GEMTrain (T : pyval) (eps : float).
    (** [GEM(self.G, self.T, self.epsilon, ...)] then [self.algo.fit] *)

(** [Synthesizer._slide_range] *)
Definition slide (st : adapter) (df : dataset) : result (dataset * adapter) :=
  if bool_attr st "slide_range" then
    let* ' (df', tr) := slide_range_forward df in
    Ok (df', mk_adapter (kind st) (epsilon st) (attrs st) (Some tr) (G st))
  else Ok (df, st).

(** The categorical-check messages (with the spaces the source's line
    continuations leave in them). *)
Definition mst_msg : string :=
  "Please make sure that MST gets categorical/ordinal                features only. If you are sure you only passed categorical,                 increase the `thresh` parameter.".

Definition gem_msg : string :=
  "Please make sure that RAP gets categorical/ordinal                features only. If you are sure you only passed categorical,                 increase the `thresh` parameter.".

(** [self.p], or [None] when the attribute is not set. *)
Definition attr_value (st : adapter) (p : string) : pyval :=
  match getattr st p with Some v => v | None => PyNone end.

(** [MSTSynthesizer.fit] *)
Definition mst_fit (st : adapter) (df : dataset) : result (adapter * list call) :=
  if negb (categorical_check st df) then
    Err ValueError mst_msg
  else
    let* ' (df, st) := slide st df in
    Ok (st, [MechFit (epsilon st) df
              (PrimFloat.mul (float_attr st "preprocess_factor") (epsilon st))]).

Definition with_epsilon (st : adapter) (e : float) : adapter :=
  mk_adapter (kind st) e (attrs st) (range_transform st) (G st).

Definition with_G (st : adapter) (g : nat -> dataset) : adapter :=
  mk_adapter (kind st) (epsilon st) (attrs st) (range_transform st) (Some g).

(** What [GEMSynthesizer] observes of a snsynth [TableTransformer]:
    whether it is already fitted, whether it needs epsilon to infer
    bounds, what its odometer reports as spent once [fit] has run, its
    [cardinality] and [output_width]. *)
Record table_transformer : Type := mk_transformer {
  fit_complete : bool;
  needs_epsilon : bool;
  odometer_spent : float;
  cardinality : list (option Z);
  output_width : nat
}.

(** The [transformer] argument of [GEMSynthesizer.fit]. *)
Inductive transformer_arg : Type :=
| TransformerNone
| TransformerDict
| TransformerObj (t : table_transformer)
| TransformerOther.

(** The transformer [_get_train_data] works with; [created] is what
    [TableTransformer.create(...)] returns. *)
Definition resolve_transformer (targ : transformer_arg) (created : table_transformer)
  : result table_transformer :=
  match targ with
  | TransformerNone | TransformerDict => Ok created
  | TransformerObj t => Ok t
  | TransformerOther =>
      Err ValueError "transformer must be a TableTransformer object, a dictionary or None."
  end.

(** [self._transformer.needs_epsilon and (preprocessor_eps is None or
    preprocessor_eps == 0.0)] *)
Definition needs_epsilon_error (t : table_transformer) (preprocessor_eps : option float) : bool :=
  needs_epsilon t && match preprocessor_eps with
                     | None => true
                     | Some e => PrimFloat.eqb e PrimFloat.zero
                     end.

(** [GEMSynthesizer._get_train_data]; [preprocessor_eps] is [None] for
    Python's [None].  The transformed training data is left implicit. *)
Definition gem_get_train_data (st : adapter) (df : dataset) (targ : transformer_arg)
  (created : table_transformer) (preprocessor_eps : option float)
  : result (adapter * table_transformer * list call) :=
  let* t := resolve_transformer targ created in
  if negb (fit_complete t) then
    if needs_epsilon_error t preprocessor_eps then
      Err ValueError "Transformer needs some epsilon to infer bounds.  If you know the bounds, pass them in to save budget.  Otherwise, set preprocessor_eps to a value > 0.0 and less than the training epsilon.  Preprocessing budget will be subtracted from training budget."
    else
      let eps_spent := odometer_spent t in
      if PrimFloat.ltb 0.0 eps_spent then
        let st := with_epsilon st (PrimFloat.sub (epsilon st) eps_spent) in
        if PrimFloat.ltb (epsilon st) 10E-3 then
          Err ValueError "Epsilon remaining is too small!"
        else Ok (st, t, [TransformerFit df preprocessor_eps])
      else Ok (st, t, [TransformerFit df preprocessor_eps])
  else Ok (st, t, []).

(** [GEMSynthesizer.fit].  The workload, query manager, generator and
    optimisation are snsynth/GEM code: the optimiser is started with
    [self.epsilon] ([GEMTrain]) and leaves the trained generator [trained]
    in [self.G].  ([self._transformer] is never [None] after
    [_get_train_data] returns, so that check is left out.) *)
Definition gem_fit (st : adapter) (df : dataset) (targ : transformer_arg)
  (created : table_transformer) (preprocessor_eps : option float)
  (trained : nat -> dataset) : result (adapter * list call) :=
  if negb (categorical_check st df) then
    Err ValueError gem_msg
  else
    let* ' (df, st) := slide st df in
    let* ' (st, t, calls) := gem_get_train_data st df targ created preprocessor_eps in
    if existsb (fun c => match c with None => true | Some _ => false end) (cardinality t) then
      Err ValueError "The transformer appears to have some continuous columns. Please provide only categorical or ordinal."
    else if negb (Nat.eqb (List.length (cardinality t)) (output_width t)) then
      Err ValueError "Cardinality and column names must be the same length."
    else
      let T := attr_value st "T" in
      Ok (with_G st trained, app calls [GEMTrain T (epsilon st)]).

(** ** PrivBayes: [pd.qcut] binning

    [pd.qcut(x, q, duplicates="drop").apply(lambda row: row.mid).astype(int)]
    as pandas 2 and numpy (1.22 or later) compute it, in binary64.  Two
    simplifications: [int64] values are converted to [float] before the
    quantiles are taken (exact below 2^53 in magnitude), and
    [floor(log10(y))] is found by comparing [y] with the powers of ten,
    which can differ from the C library's [log10] at the floats adjacent to
    a power of ten. *)

Definition float_is_nan (f : float) : bool := negb (PrimFloat.eqb f f).

Definition float_finite (f : float) : bool := PrimFloat.eqb (PrimFloat.sub f f) 0.

(** [x] rounded toward zero, for a finite [x]. *)
Definition trunc_Z (x : float) : Z :=
  match Prim2SF x with
  | S754_finite s m e =>
      let a := if 0 <=? e then Z.shiftl (Zpos m) e else Z.shiftr (Zpos m) (- e) in
      if s then - a else a
  | _ => 0
  end.

(** [10 ** k] for [k] in [-22, 22], where both the power and its
    reciprocal are correctly rounded. *)
Definition pow10 (k : Z) : float :=
  if 0 <=? k then float_of_Z (10 ^ k)
  else PrimFloat.div 1 (float_of_Z (10 ^ (- k))).

(** numpy's [power_of_ten] (used by [np.around]): a table up to [1e8],
    then repeated multiplication by ten. *)
Definition power_of_ten (n : Z) : float :=
  if n <? 9 then float_of_Z (10 ^ n)
  else Nat.iter (Z.to_nat (n - 9)) (fun r => PrimFloat.mul r 10) 1e9%float.

(** [np.rint]: round half to even (the sign of a zero result is not kept). *)
Definition np_rint (x : float) : float :=
  if negb (PrimFloat.ltb (PrimFloat.abs x) 4503599627370496) then x
  else
    let t := trunc_Z x in
    let r := PrimFloat.abs (PrimFloat.sub x (float_of_Z t)) in
    let away := if PrimFloat.ltb x 0 then t - 1 else t + 1 in
    if PrimFloat.ltb r 0.5 then float_of_Z t
    else if PrimFloat.ltb 0.5 r then float_of_Z away
    else if Z.even t then float_of_Z t else float_of_Z away.

(** [np.around(x, d)] *)
Definition np_around (x : float) (d : Z) : float :=
  if 0 <=? d then
    let f := power_of_ten d in PrimFloat.div (np_rint (PrimFloat.mul x f)) f
  else
    let f := power_of_ten (- d) in PrimFloat.mul (np_rint (PrimFloat.div x f)) f.

Fixpoint floor_log10_from (fuel : nat) (k : Z) (y : float) : Z :=
  match fuel with
  | O => k
  | S fuel =>
      if PrimFloat.leb (if 0 <=? k then float_of_Z (10 ^ k)
                        else PrimFloat.div 1 (float_of_Z (10 ^ (- k)))) y
      then k else floor_log10_from fuel (k - 1) y
  end.

(** [np.floor(np.log10(y))] for [0 < y < 1]. *)
Definition floor_log10 (y : float) : Z := floor_log10_from 400 (-1) y.

(** pandas' [_round_frac] *)
Definition round_frac (x : float) (precision : Z) : float :=
  if negb (float_finite x) || PrimFloat.eqb x 0 then x
  else
    let digits := if PrimFloat.ltb (PrimFloat.abs x) 1
                  then - floor_log10 (PrimFloat.abs x) - 1 + precision
                  else precision in
    np_around x digits.

(** [algos.unique] on floats: first occurrences, in order; NaN is one value. *)
Definition float_same (a b : float) : bool :=
  PrimFloat.eqb a b || (float_is_nan a && float_is_nan b).

Definition unique_floats (l : list float) : list float :=
  fold_left (fun acc x => if existsb (float_same x) acc then acc else app acc [x]) l [].

(** pandas' [_infer_precision] *)
Definition infer_precision (base : Z) (bins : list float) : Z :=
  match find (fun p => Nat.eqb (List.length (unique_floats (map (fun b => round_frac b p) bins)))
                               (List.length bins))
             (map Z.of_nat (seq (Z.to_nat base) (20 - Z.to_nat base))) with
  | Some p => p
  | None => base
  end.

(** The breaks of pandas' [_format_labels] with [right=True] and
    [include_lowest=True]. *)
Definition format_breaks (bins : list float) : list float :=
  let precision := infer_precision 3 bins in
  match map (fun b => round_frac b precision) bins with
  | [] => []
  | b0 :: r => PrimFloat.sub b0 (pow10 (- precision)) :: r
  end.

(** [Interval.mid] of the intervals [(breaks[i-1], breaks[i]]]. *)
Fixpoint interval_mids (breaks : list float) : list float :=
  match breaks with
  | l :: ((r :: _) as rest) => PrimFloat.mul 0.5 (PrimFloat.add l r) :: interval_mids rest
  | _ => []
  end.

(** [np.linspace(0, 1, q + 1)] for [q >= -1]. *)
Definition linspace01 (q : Z) : list float :=
  let num := Z.to_nat (q + 1) in
  if 0 <? q then
    let step := PrimFloat.div 1 (float_of_Z q) in
    map (fun i => if Nat.eqb i (num - 1) then 1%float
                  else PrimFloat.add (PrimFloat.mul (float_of_nat i) step) 0)
        (seq 0 num)
  else map (fun i => PrimFloat.add (PrimFloat.mul (float_of_nat i) 1) 0) (seq 0 num).

Fixpoint insert_float (x : float) (l : list float) : list float :=
  match l with
  | [] => [x]
  | y :: r => if PrimFloat.leb x y then x :: l else y :: insert_float x r
  end.

Definition sort_floats (l : list float) : list float := fold_right insert_float [] l.

(** numpy's [_lerp] *)
Definition np_lerp (a b t : float) : float :=
  let d := PrimFloat.sub b a in
  if PrimFloat.leb 0.5 t then PrimFloat.sub b (PrimFloat.mul d (PrimFloat.sub 1 t))
  else PrimFloat.add a (PrimFloat.mul d t).

(** [arr[i]], with numpy's [-1] for the last element. *)
Definition nth_float (l : list float) (i : Z) : float :=
  nth (Z.to_nat (if i <? 0 then Z.of_nat (List.length l) + i else i)) l PrimFloat.nan.

(** numpy's [_quantile] with [method="linear"] on the sorted values [v];
    an empty [v] gives NaN (pandas fills it in). *)
Definition np_quantile (v : list float) (p : float) : float :=
  let n := Z.of_nat (List.length v) in
  if n =? 0 then PrimFloat.nan
  else
    let virtual := PrimFloat.mul (float_of_Z (n - 1)) p in
    let '(prev, next) :=
      if PrimFloat.leb (float_of_Z (n - 1)) virtual then (-1, -1)
      else if PrimFloat.ltb virtual 0 then (0, 0)
      else let f := trunc_Z virtual in (f, f + 1) in
    let gamma := PrimFloat.sub virtual (float_of_Z prev) in
    np_lerp (nth_float v prev) (nth_float v next) gamma.

(** [x.dropna().quantile(np.linspace(0, 1, q + 1))]; pandas hands
    [qs * 100.0] to [np.percentile], which divides it by 100 again. *)
Definition qcut_bins (xs : list float) (q : Z) : list float :=
  let v := sort_floats (filter (fun x => negb (float_is_nan x)) xs) in
  map (fun p => np_quantile v (PrimFloat.div (PrimFloat.mul p 100) 100)) (linspace01 q).

(** [bins.searchsorted(x, side="left")] on sorted [bins]. *)
Definition searchsorted_left (bins : list float) (x : float) : Z :=
  Z.of_nat (List.length (filter (fun b => PrimFloat.ltb b x) bins)).

(** numpy's [float64 -> int64] cast of a finite value: truncation (out of
    range, the x86 result). *)
Definition float_to_int64 (x : float) : Z :=
  let z := trunc_Z x in
  if (- two63 <=? z) && (z <? two63) then z else - two63.

Definition col_values (col : column) : list float :=
  match col with
  | IntCol xs => map float_of_Z xs
  | FloatCol xs => xs
  end.

(** [pd.qcut(col, q=q, duplicates="drop").apply(lambda row: row.mid).astype(int)]
    for an [int] [q]: [np.linspace] refuses [q + 1 < 0]; with [q = -1] there
    are no bins and [bins[0]] raises; values outside every interval (NaN)
    make [astype(int)] raise, as does a non-finite interval midpoint. *)
Definition qcut_mid (q : Z) (col : column) : result (list Z) :=
  if q <? -1 then Err ValueError "Number of samples must be non-negative."
  else
    let xs := col_values col in
    let bins := qcut_bins xs q in
    let ub := unique_floats bins in
    let bins := if Nat.ltb (List.length ub) (List.length bins)
                   && negb (Nat.eqb (List.length bins) 2)
                then ub else bins in
    match bins with
    | [] => Err IndexError "index 0 is out of bounds for axis 0 with size 0"
    | b0 :: _ =>
        let ids := map (fun x => if PrimFloat.eqb x b0 then 1 else searchsorted_left bins x) xs in
        let nbins := Z.of_nat (List.length bins) in
        if existsb (fun '(x, i) => float_is_nan x || (i =? 0) || (i =? nbins)) (combine xs ids)
        then Err ValueError "Cannot convert float NaN to integer"
        else
          let mids := interval_mids (format_breaks bins) in
          if negb (forallb float_finite mids)
          then Err ValueError "Cannot cast float64 dtype to int64"
          else Ok (map (fun i => float_to_int64 (nth_float mids (i - 1))) ids)
    end.

(** *** [PrivBayes.fit] *)

(** [len(df[col].unique())]: NaN counts as one value. *)
Definition unique_count (col : column) : nat :=
  match col with
  | IntCol xs => distinct_count Z.eqb xs
  | FloatCol xs => List.length (unique_floats xs)
  end.

(** An [int] option as Python compares it ([bool] is an [int]). *)
Definition int_attr (st : adapter) (p : string) : Z :=
  match getattr st p with
  | Some (PyInt z) => z
  | Some (PyBool b) => if b then 1 else 0
  | _ => 0
  end.

(** The binned column for [q = self.privbayes_bins]; pandas takes a [bool]
    [q] for a single quantile, and [Index] then refuses the scalar. *)
Definition qcut_column (q : pyval) (col : column) : result column :=
  match q with
  | PyInt z => let* mids := qcut_mid z col in Ok (IntCol mids)
  | _ => Err TypeError "Index(...) must be called with a collection of some kind"
  end.

(** The [for col in df.columns] binning loop: the new data frame and the
    names put in [binned]. *)
Fixpoint bin_columns (limit : Z) (q : pyval) (df : dataset) : result (dataset * list string) :=
  match df with
  | [] => Ok ([], [])
  | (c, col) :: rest =>
      if limit <? Z.of_nat (unique_count col) then
        let* col' := qcut_column q col in
        let* ' (rest', binned) := bin_columns limit q rest in
        Ok ((c, col') :: rest', c :: binned)
      else
        let* ' (rest', binned) := bin_columns limit q rest in
        Ok ((c, col) :: rest', binned)
  end.

(** [os.path.join(a, b)] for a relative [b]. *)
Definition os_path_join (a b : string) : string :=
  if String.eqb a "" then b
  else if String.eqb (String.substring (String.length a - 1) 1 a) "/" then a ++ b
  else a ++ "/" ++ b.

Definition privbayes_msg : string :=
  "PrivBayes does not work with continous columns. Suggest                 decreasing the `privbayes_limit` or increasing the `thresh` parameter.".

(** [PrivBayes.fit]; [self.dataset_size] is left out. *)
Definition privbayes_fit (st : adapter) (df : dataset) : result (adapter * list call) :=
  let* ' (df, st) := slide st df in
  let q := attr_value st "privbayes_bins" in
  let* ' (df, binned) := bin_columns (int_attr st "privbayes_limit") q df in
  if negb (categorical_check st df) then Err ValueError privbayes_msg
  else
    let dir := str_attr st "temp_files_dir" in
    let seed := attr_value st "seed" in
    Ok (st, [WriteCsv (os_path_join dir "temp.csv") df;
             DescribeCorrelated (dir ++ "/temp.csv") (epsilon st) binned seed;
             SaveDescription (dir ++ "/privbayes_description.csv")]).

(** *** The other [fit] methods *)

(** What the [fit] methods of [PATECTGAN], [PacSynth], [AIMTSynthesizer]
    and [AIMSynthesizer] hand to their wrapped mechanisms.  The wrapped
    mechanism comes from another package; its [fit] may itself raise, and
    that exception leaves the adapter's [fit] unchanged.  The model stops at
    the call: [Ok (st, calls)] means the adapter's own code ran through and
    issued [calls]; [Err] is an exception raised by the adapter's own code
    before the call. *)
Inductive mech_call : Type :=
| PateFit (df : dataset) (categorical continuous : list string) (preprocessor_eps : float)
    (** [self.synthesizer.fit(df, categorical_columns=..., continuous_columns=...,
        preprocessor_eps=...)] *)
| PacFit (df : dataset)
    (** [self.synthesizer.fit(df, transformer=NoTransformer())] *)
| AIMFit (df : dataset).
    (** [self.synthesizer.fit(df)] *)

(** [PATECTGAN.fit]: no categorical check; the columns are classified
    after the slide.  What [self.synthesizer.fit] then does (or raises) is
    outside the model (see [mech_call]). *)
Definition patectgan_fit (st : adapter) (df : dataset) : result (adapter * list mech_call) :=
  let* ' (df, st) := slide st df in
  let '(cat, con) := categorical_continuous (float_attr st "thresh") df in
  Ok (st, [PateFit df cat con
             (PrimFloat.mul (float_attr st "preprocess_factor") (epsilon st))]).


(** The message of [AIMTSynthesizer.fit] and [AIMSynthesizer.fit]. *)
Definition aim_msg : string :=
  "Please make sure that AIM gets categorical/ordinal                features only. If you are sure you only passed categorical,                 increase the `thresh` parameter.".

(** [AIMTSynthesizer.fit] and [AIMSynthesizer.fit] (the same code). *)
Definition aim_fit (st : adapter) (df : dataset) : result (adapter * list mech_call) :=
  if negb (categorical_check st df) then
    Err ValueError aim_msg
  else
    let* ' (df, st) := slide st df in
    Ok (st, [AIMFit df]).

(** ** Sampling *)

(** [Synthesizer._unslide_range] *)
Definition unslide (st : adapter) (df : dataset) : result dataset :=
  if bool_attr st "slide_range" then
    match range_transform st with
    | None => Err ValueError "Must fit synthesizer before sampling."
    | Some tr => Ok (slide_range_backward df tr)
    end
  else Ok df.

(** What [sample] meets outside this repository: what the wrapped
    mechanism's [self.synthesizer.sample(n)] does (returns a data frame or
    raises), the files that exist, and the data frame DataSynthesizer's
    generator produces (as [pd.read_csv] reads it back) from an existing
    description file. *)
Record sample_env : Type := mk_sample_env {
  mech_sample : nat -> result dataset;
  files : list string;
  privbayes_generate : nat -> dataset
}.

(** [self.generator.generate_dataset_in_correlated_attribute_mode(n, ...)],
    [save_synthetic_data] and [pd.read_csv]: the description file must
    exist. *)
Definition privbayes_generated (st : adapter) (env : sample_env) (n : nat) : result dataset :=
  let desc := str_attr st "temp_files_dir" ++ "/privbayes_description.csv" in
  if existsb (String.eqb desc) (files env) then Ok (privbayes_generate env n)
  else Err FileNotFoundError ("No such file or directory: '" ++ desc ++ "'").

(** The [sample] methods.  [GEMSynthesizer.__init__] never sets [self.G],
    so before [fit] the [assert] reads a missing attribute. *)
Definition sample (st : adapter) (env : sample_env) (n : nat) : result dataset :=
  match kind st with
  | GEMSynthesizer =>
      match G st with
      | None => Err AttributeError "'GEMSynthesizer' object has no attribute 'G'"
      | Some g => unslide st (g n)
      end
  | PrivBayes => let* df := privbayes_generated st env n in unslide st df
  | _ => let* df := mech_sample env n in unslide st df
  end.

(** What [sample] gets before [_unslide_range]. *)
Definition raw_sample (st : adapter) (env : sample_env) (n : nat) : result dataset :=
  match kind st with
  | PrivBayes => privbayes_generated st env n
  | _ => mech_sample env n
  end.


(** The shape of the forward pass's result, column by column. *)
Definition forward_step (a b : string * column) : Prop :=
  fst b = fst a /\
  exists m, col_min (snd a) = Ok m /\
            snd b = (if scalar_pos m then col_sub (snd a) m else snd a).

(** The order [SFcompare] puts non-NaN binary64 values in, as a key
    compared lexicographically. *)
Definition sf_key (f : spec_float) : list Z :=
  match f with
  | S754_zero _ => [0; 0; 0]
  | S754_infinity s => [if s then -2 else 2; 0; 0]
  | S754_nan => []
  | S754_finite s m e => if s then [-1; - e; - Zpos m] else [1; e; Zpos m]
  end.

Fixpoint lex (a b : list Z) : comparison :=
  match a, b with
  | x :: a', y :: b' => match Z.compare x y with Eq => lex a' b' | c => c end
  | _, _ => Eq
  end.

Definition sf_notnan (f : spec_float) : bool :=
  match f with S754_nan => false | _ => true end.

(** * Proofs *)

(** ** Range transform *)

Lemma wrap64_small (z : Z) : int64_ok z = true -> wrap64 z = z.
Proof.
  unfold int64_ok, wrap64, two63. intros H.
  apply andb_true_iff in H as [H1 H2]. apply Z.leb_le in H1. apply Z.ltb_lt in H2.
  rewrite Z.mod_small by lia. lia.
Qed.

Lemma wrap64_add_l (a b : Z) : wrap64 (wrap64 a + b) = wrap64 (a + b).
Proof.
  unfold wrap64.
  replace ((a + two63) mod (2 * two63) - two63 + b + two63)
    with ((a + two63) mod (2 * two63) + b) by ring.
  rewrite Z.add_mod_idemp_l by (unfold two63; lia).
  f_equal. f_equal. ring.
Qed.

Lemma int64_column_roundtrip (col : column) :
  int64_column col = true -> roundtrip_column col = col.
Proof.
  destruct col as [xs | xs]; simpl; [| discriminate].
  intros Hok. destruct xs as [| x r]; [reflexivity |].
  unfold roundtrip_column; cbn [col_min py_min bind].
  set (m := fold_left _ r x).
  destruct (scalar_pos (SInt m)); [| reflexivity].
  cbn [col_add col_sub col_arith]. rewrite map_map. f_equal.
  rewrite <- (map_id (x :: r)) at 2. apply map_ext_in.
  intros y Hy. rewrite wrap64_add_l.
  replace (y - m + m) with y by ring.
  apply wrap64_small. eapply forallb_forall; [exact Hok | exact Hy].
Qed.

Lemma slide_forward_loop_lookup (df : dataset) :
  forall tr df' tr' k,
  slide_forward_loop df tr = Ok (df', tr') ->
  ~ In k (columns df) -> lookup k tr' = lookup k tr.
Proof.
  induction df as [| [c col] rest IH]; simpl; intros tr df' tr' k Hf Hk.
  - inversion Hf; reflexivity.
  - destruct (col_min col) as [m |] eqn:Hm; simpl in Hf; [| discriminate].
    destruct (scalar_pos m).
    + destruct (slide_forward_loop rest ((c, m) :: tr)) as [[r t] |] eqn:Hr;
        simpl in Hf; inversion Hf; subst.
      rewrite (IH _ _ _ _ Hr) by tauto. simpl.
      destruct (String.eqb_spec k c); [subst; tauto | reflexivity].
    + destruct (slide_forward_loop rest tr) as [[r t] |] eqn:Hr;
        simpl in Hf; inversion Hf; subst.
      apply (IH _ _ _ _ Hr). tauto.
Qed.

(** Backward after forward does, column by column, what
    [roundtrip_column] says. *)
Lemma slide_forward_loop_backward (df : dataset) :
  forall tr df' tr',
  slide_forward_loop df tr = Ok (df', tr') ->
  NoDup (columns df) ->
  (forall c, In c (columns df) -> lookup c tr = None) ->
  slide_range_backward df' tr' = map (fun '(c, col) => (c, roundtrip_column col)) df.
Proof.
  induction df as [| [c col] rest IH]; simpl; intros tr df' tr' Hf Hnd Hfresh.
  - inversion Hf; reflexivity.
  - inversion Hnd as [| ? ? Hnin Hnd']; subst.
    unfold roundtrip_column.
    destruct (col_min col) as [m |] eqn:Hm; simpl in Hf; [| discriminate].
    destruct (scalar_pos m) eqn:Hpos.
    + destruct (slide_forward_loop rest ((c, m) :: tr)) as [[r t] |] eqn:Hr;
        simpl in Hf; inversion Hf; subst. simpl.
      rewrite (slide_forward_loop_lookup _ _ _ _ _ Hr Hnin). simpl.
      rewrite String.eqb_refl. f_equal.
      apply (IH _ _ _ Hr Hnd'). intros c' Hc'. simpl.
      destruct (String.eqb_spec c' c); [subst; tauto |].
      apply Hfresh. tauto.
    + destruct (slide_forward_loop rest tr) as [[r t] |] eqn:Hr;
        simpl in Hf; inversion Hf; subst. simpl.
      rewrite (slide_forward_loop_lookup _ _ _ _ _ Hr Hnin).
      rewrite (Hfresh c (or_introl eq_refl)). f_equal.
      apply (IH _ _ _ Hr Hnd'). intros c' Hc'. apply Hfresh. tauto.
Qed.

(** C1 (as amended): with distinct column names, whenever the forward
    pass succeeds (every column is non-empty), the backward pass over its
    result and mapping gives each column [c] back as [roundtrip_column c]:
    the column itself when its minimum is not positive, and the values
    [(x - m) + m] computed in the column's own arithmetic otherwise.  When
    every column is an [int64] column this is the dataset itself, exactly. *)
Theorem slide_range_roundtrip (df df' : dataset) (tr : transform) :
  NoDup (columns df) ->
  slide_range_forward df = Ok (df', tr) ->
  slide_range_backward df' tr = map (fun '(c, col) => (c, roundtrip_column col)) df /\
  (forallb (fun '(_, col) => int64_column col) df = true ->
   slide_range_backward df' tr = df).
Proof.
  intros Hnd Hf.
  pose proof (slide_forward_loop_backward df [] df' tr Hf Hnd
                (fun c _ => eq_refl)) as Hb.
  split; [exact Hb |].
  intros Hint. rewrite Hb. rewrite <- (map_id df) at 2. apply map_ext_in.
  intros [c col] Hin. rewrite int64_column_roundtrip; [reflexivity |].
  exact (proj1 (forallb_forall _ df) Hint (c, col) Hin).
Qed.

Lemma slide_range_roundtrip_witness :
  exists df' tr,
    NoDup (columns [("a", IntCol [3; 5]); ("b", FloatCol ([0.5; 2.0])%float)]) /\
    slide_range_forward [("a", IntCol [3; 5]); ("b", FloatCol ([0.5; 2.0])%float)] = Ok (df', tr) /\
    slide_range_backward df' tr
      = map (fun '(c, col) => (c, roundtrip_column col))
            [("a", IntCol [3; 5]); ("b", FloatCol ([0.5; 2.0])%float)] /\
    (forallb (fun '(_, col) => int64_column col)
       [("a", IntCol [3; 5]); ("b", FloatCol ([0.5; 2.0])%float)] = true ->
     slide_range_backward df' tr = [("a", IntCol [3; 5]); ("b", FloatCol ([0.5; 2.0])%float)]).
Proof.
  eexists. eexists.
  assert (Hnd : NoDup (columns [("a", IntCol [3; 5]); ("b", FloatCol ([0.5; 2.0])%float)])).
  { simpl. repeat constructor; simpl; intuition discriminate. }
  assert (Hf : slide_range_forward [("a", IntCol [3; 5]); ("b", FloatCol ([0.5; 2.0])%float)]
               = Ok ([("a", IntCol [0; 2]); ("b", FloatCol ([0.0; 1.5])%float)],
                     [("b", SFloat 0.5); ("a", SInt 3)])).
  { vm_compute. reflexivity. }
  split; [exact Hnd |]. split; [exact Hf |].
  exact (slide_range_roundtrip _ _ _ Hnd Hf).
Defined.

(** C1 fails as stated: the [float64] column [[0.2, 0.9]] has minimum
    [0.2 > 0]; forward gives [[0.0, 0.9 - 0.2]] and backward
    [[0.2, (0.9 - 0.2) + 0.2]] = [[0.2, 0.8999999999999999]], not [0.9]. *)
Lemma slide_range_roundtrip_cex :
  exists df' tr,
    slide_range_forward [("a", FloatCol ([0.2; 0.9])%float)] = Ok (df', tr) /\
    slide_range_backward df' tr = [("a", FloatCol ([0.2; 0.8999999999999999])%float)] /\
    PrimFloat.eqb 0.8999999999999999 0.9 = false.
Proof.
  eexists. eexists. split; [vm_compute; reflexivity |].
  split; vm_compute; reflexivity.
Qed.

(** ** Constructors *)

Lemma check_allowed_ok (allowed : list string) (l : list (string * pyval)) :
  check_allowed allowed l = Ok tt ->
  forall p x, In (p, x) l -> existsb (String.eqb p) allowed = true.
Proof.
  unfold check_allowed. destruct (find _ l) as [[q y] |] eqn:Hf; [discriminate |].
  intros _ p x Hin. pose proof (find_none _ _ Hf (p, x) Hin) as H. simpl in H.
  destruct (existsb (String.eqb p) allowed); [reflexivity | discriminate].
Qed.

Lemma synthesizer_init_allowed v e s t kw st :
  synthesizer_init v e s t kw = Ok st -> check_allowed base_params kw = Ok tt.
Proof.
  unfold synthesizer_init. intros H.
  destruct e; try discriminate;
  destruct (negb _); try discriminate;
  destruct (py_float _); try discriminate; simpl in H;
  destruct (check_allowed base_params kw) as [[] |]; try discriminate; reflexivity.
Qed.

Lemma init_params_allow_list (v : variant) :
  app base_params (init_params v) = allow_list v.
Proof. destruct v; reflexivity. Qed.

(** C5: constructing any adapter class with a keyword option whose name is
    outside that class's allow-list (the base list [epsilon, slide_range,
    thresh] plus the class's own) fails: the program raises an exception
    (the [ValueError] "not available" unless an earlier argument check
    raised first), the spec's [ConfigurationError]. *)
Theorem construct_rejects_unknown_option (v : variant)
  (kwargs : list (string * pyval)) (p : string) (x : pyval) :
  In (p, x) kwargs ->
  existsb (String.eqb p) (allow_list v) = false ->
  is_ok (construct v kwargs) = false.
Proof.
  intros Hin Hp. unfold construct.
  destruct (existsb _ kwargs); [reflexivity |].
  rewrite init_params_allow_list.
  set (extra := filter _ kwargs).
  assert (Hx : In (p, x) extra).
  { apply filter_In. split; [exact Hin |]. rewrite Hp. reflexivity. }
  unfold allow_list in Hp. rewrite existsb_app in Hp.
  apply orb_false_iff in Hp as [Hbase Hadd].
  destruct v;
    (match goal with
     | |- context [synthesizer_init ?w ?e ?s ?t extra] =>
         destruct (synthesizer_init w e s t extra) eqn:Hi; [| reflexivity];
         apply synthesizer_init_allowed in Hi;
         rewrite (check_allowed_ok _ _ Hi p x Hx) in Hbase; discriminate
     | |- context [synthesizer_init ?w ?e ?s ?t []] =>
         destruct (synthesizer_init w e s t []); [| reflexivity]; simpl;
         match goal with
         | |- context [check_allowed ?al extra] =>
             destruct (check_allowed al extra) as [[] |] eqn:Hc; [| reflexivity];
             pose proof (check_allowed_ok _ _ Hc p x Hx) as Hy;
             simpl in Hy, Hadd; congruence
         end
     end).
Qed.

Lemma construct_rejects_unknown_option_witness :
  In ("epsilons", PyFloat 1.0) [("epsilon", PyFloat 1.0); ("epsilons", PyFloat 1.0)] /\
  existsb (String.eqb "epsilons") (allow_list MSTSynthesizer) = false /\
  is_ok (construct MSTSynthesizer [("epsilon", PyFloat 1.0); ("epsilons", PyFloat 1.0)])
    = false.
Proof.
  split; [simpl; tauto |]. split; [reflexivity |].
  apply (construct_rejects_unknown_option MSTSynthesizer _ "epsilons" (PyFloat 1.0));
    [simpl; tauto | reflexivity].
Defined.

Lemma base_options_ok (sr th : pyval) :
  (sr = PyNone \/ exists b, sr = PyBool b) ->
  (th = PyNone \/ (exists f, th = PyFloat f) \/ (exists b, th = PyBool b) \/
   (exists z f, th = PyInt z /\ float_of_Z_opt z = Some f)) ->
  is_ok (set_options base_options [("slide_range", sr); ("thresh", th)]) = true.
Proof.
  intros Hsr Hth. unfold set_options, base_options, arg. cbn [lookup String.eqb].
  simpl.
  destruct Hsr as [-> | [b ->]];
  destruct Hth as [-> | [[f ->] | [[c ->] | [z [f [-> Hz]]]]]];
    simpl; try reflexivity; rewrite Hz; reflexivity.
Qed.

(** C10 (as amended): with [slide_range] and [thresh] each [None] or of
    the declared type ([thresh] may be an [int] that [float()] converts) and
    no extra keyword, [Synthesizer.__init__] succeeds exactly when
    [float(epsilon)] does: it fails when [epsilon] is [None], is not an
    [int]/[float] ([bool] is an [int]), or is an [int] too large for
    [float()]; otherwise it stores [float(epsilon)], whatever its sign. *)
Theorem synthesizer_init_epsilon (v : variant) (eps sr th : pyval) :
  (sr = PyNone \/ exists b, sr = PyBool b) ->
  (th = PyNone \/ (exists f, th = PyFloat f) \/ (exists b, th = PyBool b) \/
   (exists z f, th = PyInt z /\ float_of_Z_opt z = Some f)) ->
  is_ok (synthesizer_init v eps sr th []) = is_ok (py_float eps) /\
  (forall f, py_float eps = Ok f ->
   exists st, synthesizer_init v eps sr th [] = Ok st /\ epsilon st = f).
Proof.
  intros Hsr Hth.
  pose proof (base_options_ok sr th Hsr Hth) as Hopts.
  destruct (set_options base_options [("slide_range", sr); ("thresh", th)])
    as [attrs0 |] eqn:Hset; [| discriminate].
  assert (Hgood : forall f, py_float eps = Ok f ->
            synthesizer_init v eps sr th [] = Ok (mk_adapter v f attrs0 None None)).
  { intros f Hf. unfold synthesizer_init.
    destruct eps; try discriminate; cbn [isinstance orb negb]; rewrite Hf;
      cbn [bind check_allowed find]; rewrite Hset; reflexivity. }
  split.
  - destruct (py_float eps) as [f |] eqn:Hf.
    + rewrite (Hgood f eq_refl). reflexivity.
    + unfold synthesizer_init.
      destruct eps; cbn [isinstance orb negb]; try reflexivity;
        rewrite Hf; reflexivity.
  - intros f Hf. exists (mk_adapter v f attrs0 None None). split; auto.
Qed.

Lemma synthesizer_init_epsilon_witness :
  (PyNone = PyNone \/ exists b, PyNone = PyBool b) /\
  (PyNone = PyNone \/ (exists f, PyNone = PyFloat f) \/ (exists b, PyNone = PyBool b) \/
   (exists z f, PyNone = PyInt z /\ float_of_Z_opt z = Some f)) /\
  (is_ok (synthesizer_init PacSynth (PyInt (-3)) PyNone PyNone [])
     = is_ok (py_float (PyInt (-3))) /\
   (forall f, py_float (PyInt (-3)) = Ok f ->
    exists st, synthesizer_init PacSynth (PyInt (-3)) PyNone PyNone [] = Ok st /\
               epsilon st = f)).
Proof.
  split; [left; reflexivity |]. split; [left; reflexivity |].
  apply synthesizer_init_epsilon; left; reflexivity.
Defined.

(** C10 fails as stated: an [int] epsilon of [2^1024] makes [float()] raise
    [OverflowError], and a well-typed epsilon with [thresh="x"] raises
    [TypeError]. *)
Lemma synthesizer_init_epsilon_cex :
  raised (synthesizer_init PacSynth (PyInt (2 ^ 1024)) PyNone PyNone [])
    = Some OverflowError /\
  raised (synthesizer_init PacSynth (PyFloat 1.0) PyNone (PyStr "x") [])
    = Some TypeError.
Proof. split; vm_compute; reflexivity. Qed.

Lemma coerce_float_option_same (m p : string) (x d y : pyval) :
  coerce_float_option m x d = Ok y <-> coerce_option p x d TFloat = Ok y.
Proof.
  unfold coerce_float_option, coerce_option.
  destruct x; cbn [isinstance andb pytype_eqb bind];
    try (match goal with |- context [py_float ?w] => destruct (py_float w) end);
    cbn [bind isinstance]; split; intros H; (discriminate H || exact H).
Qed.

Lemma lookup_app {A} (p : string) (l1 l2 : list (string * A)) :
  lookup p (app l1 l2) = match lookup p l1 with Some x => Some x | None => lookup p l2 end.
Proof.
  induction l1 as [| [k v] l1 IH]; simpl; [reflexivity |].
  destruct (String.eqb p k); [reflexivity | exact IH].
Qed.

Lemma lookup_notin {A} (p : string) (l : list (string * A)) :
  ~ In p (map fst l) -> lookup p l = None.
Proof.
  induction l as [| [k v] l IH]; simpl; intros H; [reflexivity |].
  destruct (String.eqb_spec p k); [subst; tauto |]. apply IH. tauto.
Qed.

Lemma set_options_names (decls : list option_decl) kw attrs :
  set_options decls kw = Ok attrs -> map fst attrs = map fst decls.
Proof.
  revert attrs. induction decls as [| [p [d t]] rest IH]; simpl; intros attrs H.
  - inversion H; reflexivity.
  - destruct (coerce_option p (arg kw p) d t); simpl in H; [| discriminate].
    destruct (set_options rest kw) as [a' |] eqn:Hr; simpl in H; [| discriminate].
    inversion H; subst; simpl. f_equal. apply IH. reflexivity.
Qed.

Lemma set_options_lookup (decls : list option_decl) kw attrs :
  set_options decls kw = Ok attrs -> NoDup (map fst decls) ->
  forall p d t, In (p, (d, t)) decls ->
  exists x, coerce_option p (arg kw p) d t = Ok x /\ lookup p attrs = Some x.
Proof.
  revert attrs. induction decls as [| [q [e u]] rest IH]; simpl; intros attrs H Hnd p d t Hin.
  - contradiction.
  - inversion Hnd as [| ? ? Hq Hnd']; subst.
    destruct (coerce_option q (arg kw q) e u) as [y |] eqn:Hc; simpl in H; [| discriminate].
    destruct (set_options rest kw) as [a' |] eqn:Hr; simpl in H; [| discriminate].
    inversion H; subst; simpl.
    destruct Hin as [Heq | Hin].
    + inversion Heq; subst. exists y. rewrite String.eqb_refl. auto.
    + destruct (IH a' eq_refl Hnd' p d t Hin) as [x [Hx Hl]].
      exists x. split; [exact Hx |].
      destruct (String.eqb_spec p q); [| exact Hl].
      subst. exfalso. apply Hq. apply (in_map (fun o : option_decl => fst o) _ _ Hin).
Qed.

Lemma set_options_fails (decls : list option_decl) kw p d t :
  In (p, (d, t)) decls -> is_ok (coerce_option p (arg kw p) d t) = false ->
  is_ok (set_options decls kw) = false.
Proof.
  induction decls as [| [q [e u]] rest IH]; simpl; intros Hin Hbad; [contradiction |].
  destruct Hin as [Heq | Hin].
  - inversion Heq; subst. destruct (coerce_option p (arg kw p) d t); [discriminate | reflexivity].
  - destruct (coerce_option q (arg kw q) e u); simpl; [| reflexivity].
    specialize (IH Hin Hbad). destruct (set_options rest kw); [discriminate | reflexivity].
Qed.

Lemma synthesizer_init_inv v e s t kw st :
  synthesizer_init v e s t kw = Ok st ->
  py_float e = Ok (epsilon st) /\
  set_options base_options [("slide_range", s); ("thresh", t)] = Ok (attrs st) /\
  kind st = v /\ range_transform st = None /\ G st = None.
Proof.
  unfold synthesizer_init. intros H.
  destruct e; try discriminate; cbn [isinstance orb negb] in H;
  destruct (py_float _) as [ef |] eqn:Hf; try discriminate; cbn [bind] in H;
  destruct (check_allowed base_params kw) as [[] |]; try discriminate; cbn [bind] in H;
  destruct (set_options base_options _) as [a |] eqn:Hs; try discriminate;
  cbn [bind] in H; inversion H; subst; simpl; auto.
Qed.

Lemma construct_inv (v : variant) kw st :
  construct v kw = Ok st ->
  exists a1 a2,
    set_options base_options [("slide_range", arg kw "slide_range"); ("thresh", arg kw "thresh")]
      = Ok a1 /\
    set_options (own_options v) kw = Ok a2 /\
    attrs st = app a1 a2 /\ py_float (arg kw "epsilon") = Ok (epsilon st) /\
    kind st = v /\ range_transform st = None /\ G st = None.
Proof.
  unfold construct. destruct (existsb _ kw); [discriminate |].
  intros H. destruct v;
  match type of H with
  | synthesizer_init ?w ?e ?s ?t ?x = Ok st =>
      apply synthesizer_init_inv in H as (He & Hs & Hk & Hr & Hg);
      exists (attrs st), []; rewrite app_nil_r; repeat split; auto
  | _ =>
      destruct (synthesizer_init _ _ _ _ []) as [st0 |] eqn:Hi; [| discriminate];
      cbn [bind] in H;
      apply synthesizer_init_inv in Hi as (He & Hs & Hk & Hr & Hg);
      match type of H with
      | context [check_allowed ?al ?x] =>
          destruct (check_allowed al x) as [[] |]; [| discriminate]; cbn [bind] in H
      end;
      match type of H with
      | context [coerce_float_option ?m ?x ?d] =>
          destruct (coerce_float_option m x d) as [y |] eqn:Hc; [| discriminate];
          cbn [bind] in H; inversion H; subst; clear H;
          exists (attrs st0), [(fst (hd ("", (PyNone, TFloat)) (own_options (kind st0))), y)];
          cbn [own_options fst hd set_options];
          match goal with
          | |- context [coerce_option ?p ?x ?d TFloat] =>
              apply (coerce_float_option_same m p) in Hc; rewrite Hc
          end;
          simpl; rewrite Hk; auto 10
      | context [set_options ?ds ?x] =>
          destruct (set_options ds x) as [a2 |] eqn:Ho; [| discriminate];
          cbn [bind] in H;
          try (destruct (os_makedirs _) as [[] |]; [| discriminate]; cbn [bind] in H);
          inversion H; subst; clear H;
          exists (attrs st0), a2; simpl; auto 10
      end
  end.
Qed.

Lemma declared_options_split (v : variant) p d t :
  In (p, (d, t)) (declared_options v) ->
  In (p, (d, t)) base_options \/
  (In (p, (d, t)) (own_options v) /\ ~ In p (map fst base_options)).
Proof.
  unfold declared_options. intros H. apply in_app_or in H as [H | H]; [left; exact H |].
  right. split; [exact H |].
  destruct v; simpl in H; repeat destruct H as [H | H];
    try contradiction; inversion H; subst; simpl; intuition discriminate.
Qed.

Lemma own_options_nodup (v : variant) : NoDup (map fst (own_options v)).
Proof.
  destruct v; simpl; repeat constructor; simpl; intuition discriminate.
Qed.

Lemma construct_option_value (v : variant) kw st p d t :
  construct v kw = Ok st -> In (p, (d, t)) (declared_options v) ->
  exists x, coerce_option p (arg kw p) d t = Ok x /\ getattr st p = Some x.
Proof.
  intros Hc Hin.
  destruct (construct_inv v kw st Hc) as (a1 & a2 & H1 & H2 & Ha & _).
  unfold getattr. rewrite Ha, lookup_app.
  destruct (declared_options_split v p d t Hin) as [Hb | [Ho Hnb]].
  - assert (Hnd : NoDup (map fst base_options))
      by (simpl; repeat constructor; simpl; intuition discriminate).
    destruct (set_options_lookup _ _ _ H1 Hnd p d t Hb) as [x [Hx Hl]].
    exists x. rewrite Hl. split; [| reflexivity].
    simpl in Hb. destruct Hb as [Hb | [Hb | []]]; inversion Hb; subst; exact Hx.
  - destruct (set_options_lookup _ _ _ H2 (own_options_nodup v) p d t Ho) as [x [Hx Hl]].
    exists x. split; [exact Hx |].
    rewrite (lookup_notin p a1); [exact Hl |].
    rewrite (set_options_names _ _ _ H1). exact Hnb.
Qed.

Lemma construct_option_fails (v : variant) kw p d t :
  In (p, (d, t)) (declared_options v) ->
  is_ok (coerce_option p (arg kw p) d t) = false ->
  is_ok (construct v kw) = false.
Proof.
  intros Hin Hbad. destruct (construct v kw) as [st |] eqn:Hc; [| reflexivity].
  destruct (construct_option_value v kw st p d t Hc Hin) as [x [Hx _]].
  rewrite Hx in Hbad. discriminate.
Qed.

(** C9 (as amended): for every option [p] a class declares, with default
    [d] and type [t]: an absent or [None] value gives [d]; an [int] (or
    [bool]) given for a [float] option goes through [float()] (and fails
    construction when [float()] overflows); no other conversion is made;
    the value must then be an instance of [t] ([bool] counts as [int]),
    otherwise construction fails ([TypeError]).  In particular a [float]
    given for an [int] option is not converted and fails. *)
Theorem construct_option_coercion (v : variant) kw p d t :
  In (p, (d, t)) (declared_options v) ->
  (arg kw p = PyNone ->
   forall st, construct v kw = Ok st -> getattr st p = Some d) /\
  (t = TFloat -> forall z, arg kw p = PyInt z ->
   (float_of_Z_opt z = None -> is_ok (construct v kw) = false) /\
   (forall st, construct v kw = Ok st ->
    exists f, float_of_Z_opt z = Some f /\ getattr st p = Some (PyFloat f))) /\
  (t = TFloat -> forall b, arg kw p = PyBool b ->
   forall st, construct v kw = Ok st ->
   getattr st p = Some (PyFloat (if b then PrimFloat.one else PrimFloat.zero))) /\
  (forall x, arg kw p = x -> x <> PyNone -> (t = TFloat -> isinstance x TInt = false) ->
   (isinstance x t = false -> is_ok (construct v kw) = false) /\
   (forall st, construct v kw = Ok st -> getattr st p = Some x)).
Proof.
  intros Hin.
  assert (Hconv : forall x, x <> PyNone -> (t = TFloat -> isinstance x TInt = false) ->
            (isinstance x TInt && pytype_eqb t TFloat) = false).
  { intros x _ Hnf. destruct t; try (apply andb_false_r).
    rewrite (Hnf eq_refl). reflexivity. }
  split; [| split; [| split]].
  - intros Hn st Hc. destruct (construct_option_value v kw st p d t Hc Hin) as [x [Hx Hg]].
    rewrite Hn in Hx. simpl in Hx. inversion Hx; subst. exact Hg.
  - intros Ht z Hz. split.
    + intros Hov. apply (construct_option_fails v kw p d t Hin).
      rewrite Hz, Ht. simpl. rewrite Hov. reflexivity.
    + intros st Hc. destruct (construct_option_value v kw st p d t Hc Hin) as [x [Hx Hg]].
      rewrite Hz, Ht in Hx. simpl in Hx.
      destruct (float_of_Z_opt z) as [f |]; simpl in Hx; inversion Hx; subst.
      exists f. auto.
  - intros Ht b Hb st Hc. destruct (construct_option_value v kw st p d t Hc Hin) as [x [Hx Hg]].
    rewrite Hb, Ht in Hx. simpl in Hx. inversion Hx; subst. exact Hg.
  - intros x Hx Hnn Hnf. subst x. specialize (Hconv _ Hnn Hnf). split.
    + intros Hbad. apply (construct_option_fails v kw p d t Hin).
      unfold coerce_option.
      destruct (arg kw p) as [| ? | ? | ? | ? |]; try (exfalso; apply Hnn; reflexivity);
        rewrite Hconv; cbn [bind]; rewrite Hbad; reflexivity.
    + intros st Hc. destruct (construct_option_value v kw st p d t Hc Hin) as [y [Hy Hg]].
      unfold coerce_option in Hy.
      destruct (arg kw p) as [| ? | ? | ? | ? |]; try (exfalso; apply Hnn; reflexivity);
        rewrite Hconv in Hy; cbn [bind] in Hy;
        destruct (isinstance _ t); inversion Hy; subst; exact Hg.
Qed.

Lemma construct_option_coercion_witness :
  (exists st, construct MSTSynthesizer [("epsilon", PyFloat 1.0)] = Ok st /\
     getattr st "delta" = Some (PyFloat 1e-09)) /\
  (exists st f,
     construct MSTSynthesizer [("epsilon", PyFloat 1.0); ("preprocess_factor", PyInt 1)]
       = Ok st /\
     float_of_Z_opt 1 = Some f /\ getattr st "preprocess_factor" = Some (PyFloat f)) /\
  (exists st,
     construct MSTSynthesizer [("epsilon", PyFloat 1.0); ("delta", PyBool true)] = Ok st /\
     getattr st "delta" = Some (PyFloat PrimFloat.one)) /\
  float_of_Z_opt (2 ^ 1024) = None /\
  is_ok (construct MSTSynthesizer [("epsilon", PyFloat 1.0); ("delta", PyInt (2 ^ 1024))])
    = false /\
  is_ok (construct GEMSynthesizer [("epsilon", PyFloat 1.0); ("k", PyFloat 3.0)]) = false /\
  (exists st,
     construct GEMSynthesizer [("epsilon", PyFloat 1.0); ("k", PyBool true)] = Ok st /\
     getattr st "k" = Some (PyBool true)).
Proof.
  split; [| split; [| split; [| split; [| split; [| split]]]]].
  - (* absent: the default *)
    pose (st := match construct MSTSynthesizer [("epsilon", PyFloat 1.0)] with
                | Ok st => st | Err _ _ => mk_adapter MSTSynthesizer 0 [] None None end).
    assert (Hc : construct MSTSynthesizer [("epsilon", PyFloat 1.0)] = Ok st)
      by (vm_compute; reflexivity).
    exists st. split; [exact Hc |].
    exact (proj1 (construct_option_coercion MSTSynthesizer [("epsilon", PyFloat 1.0)]
             "delta" (PyFloat 1e-09) TFloat ltac:(simpl; tauto)) eq_refl st Hc).
  - (* an int for a float option goes through float() *)
    pose (st := match construct MSTSynthesizer
                        [("epsilon", PyFloat 1.0); ("preprocess_factor", PyInt 1)] with
                | Ok st => st | Err _ _ => mk_adapter MSTSynthesizer 0 [] None None end).
    assert (Hc : construct MSTSynthesizer
                   [("epsilon", PyFloat 1.0); ("preprocess_factor", PyInt 1)] = Ok st)
      by (vm_compute; reflexivity).
    destruct (proj2 (proj1 (proj2 (construct_option_coercion MSTSynthesizer
                [("epsilon", PyFloat 1.0); ("preprocess_factor", PyInt 1)]
                "preprocess_factor" (PyFloat 0.05) TFloat ltac:(simpl; tauto)))
                eq_refl 1 eq_refl) st Hc) as [f Hf].
    exists st, f. split; [exact Hc | exact Hf].
  - (* a bool for a float option goes through float() *)
    pose (st := match construct MSTSynthesizer
                        [("epsilon", PyFloat 1.0); ("delta", PyBool true)] with
                | Ok st => st | Err _ _ => mk_adapter MSTSynthesizer 0 [] None None end).
    assert (Hc : construct MSTSynthesizer
                   [("epsilon", PyFloat 1.0); ("delta", PyBool true)] = Ok st)
      by (vm_compute; reflexivity).
    exists st. split; [exact Hc |].
    exact (proj1 (proj2 (proj2 (construct_option_coercion MSTSynthesizer
             [("epsilon", PyFloat 1.0); ("delta", PyBool true)]
             "delta" (PyFloat 1e-09) TFloat ltac:(simpl; tauto))))
             eq_refl true eq_refl st Hc).
  - vm_compute. reflexivity.
  - (* float() overflows *)
    assert (Hov : float_of_Z_opt (2 ^ 1024) = None) by (vm_compute; reflexivity).
    exact (proj1 (proj1 (proj2 (construct_option_coercion MSTSynthesizer
             [("epsilon", PyFloat 1.0); ("delta", PyInt (2 ^ 1024))]
             "delta" (PyFloat 1e-09) TFloat ltac:(simpl; tauto)))
             eq_refl (2 ^ 1024) eq_refl) Hov).
  - (* a float for an int option is not converted: TypeError *)
    exact (proj1 (proj2 (proj2 (proj2 (construct_option_coercion GEMSynthesizer
             [("epsilon", PyFloat 1.0); ("k", PyFloat 3.0)]
             "k" (PyInt 3) TInt ltac:(simpl; tauto))))
             (PyFloat 3.0) eq_refl ltac:(discriminate) ltac:(discriminate)) eq_refl).
  - (* a bool is an int: kept as it is *)
    pose (st := match construct GEMSynthesizer
                        [("epsilon", PyFloat 1.0); ("k", PyBool true)] with
                | Ok st => st | Err _ _ => mk_adapter GEMSynthesizer 0 [] None None end).
    assert (Hc : construct GEMSynthesizer
                   [("epsilon", PyFloat 1.0); ("k", PyBool true)] = Ok st)
      by (vm_compute; reflexivity).
    exists st. split; [exact Hc |].
    exact (proj2 (proj2 (proj2 (proj2 (construct_option_coercion GEMSynthesizer
             [("epsilon", PyFloat 1.0); ("k", PyBool true)]
             "k" (PyInt 3) TInt ltac:(simpl; tauto))))
             (PyBool true) eq_refl ltac:(discriminate) ltac:(discriminate)) st Hc).
Defined.

(** C9 fails as stated: a [float] given for [GEMSynthesizer]'s [int]
    option [k] is not converted to [int]; construction raises [TypeError]. *)
Lemma construct_option_coercion_cex :
  raised (construct GEMSynthesizer [("epsilon", PyFloat 1.0); ("k", PyFloat 3.0)])
    = Some TypeError.
Proof. vm_compute. reflexivity. Qed.

(** ** Column classification *)

Lemma categorical_continuous_filter (thresh : float) (df : dataset) :
  fst (categorical_continuous thresh df)
    = map fst (filter (fun '(_, col) => PrimFloat.ltb (distinct_ratio col) thresh) df) /\
  snd (categorical_continuous thresh df)
    = map fst (filter (fun '(_, col) => negb (PrimFloat.ltb (distinct_ratio col) thresh)) df).
Proof.
  induction df as [| [c col] rest [IH1 IH2]]; simpl; [auto |].
  destruct (categorical_continuous thresh rest) as [cat con]. simpl in IH1, IH2.
  destruct (PrimFloat.ltb (distinct_ratio col) thresh); simpl; subst; auto.
Qed.

Lemma nodup_fst_functional {A} (l : list (string * A)) c a b :
  NoDup (map fst l) -> In (c, a) l -> In (c, b) l -> a = b.
Proof.
  induction l as [| [k v] l IH]; simpl; intros Hnd Ha Hb; [contradiction |].
  inversion Hnd as [| ? ? Hk Hnd']; subst.
  destruct Ha as [Ha | Ha]; destruct Hb as [Hb | Hb].
  - inversion Ha; inversion Hb; subst; reflexivity.
  - inversion Ha; subst. exfalso. apply Hk. apply (in_map fst _ _ Hb).
  - inversion Hb; subst. exfalso. apply Hk. apply (in_map fst _ _ Ha).
  - exact (IH Hnd' Ha Hb).
Qed.

(** C6: [_categorical_continuous] puts a column in the categorical list
    exactly when its ratio [float(nunique) / count] (computed in binary64)
    is strictly below the threshold, and in the continuous list otherwise,
    keeping column order; with distinct column names the two lists are
    disjoint, and their union is the set of columns. *)
Theorem categorical_continuous_spec (thresh : float) (df : dataset) :
  NoDup (columns df) ->
  let '(cat, con) := categorical_continuous thresh df in
  cat = map fst (filter (fun '(_, col) => PrimFloat.ltb (distinct_ratio col) thresh) df) /\
  con = map fst (filter (fun '(_, col) => negb (PrimFloat.ltb (distinct_ratio col) thresh)) df) /\
  (forall c, In c cat -> ~ In c con) /\
  (forall c, In c (columns df) <-> In c cat \/ In c con).
Proof.
  intros Hnd.
  destruct (categorical_continuous_filter thresh df) as [H1 H2].
  destruct (categorical_continuous thresh df) as [cat con]. simpl in H1, H2. subst.
  split; [reflexivity |]. split; [reflexivity |]. split.
  - intros c Hc Hc'.
    apply in_map_iff in Hc as [[c1 col1] [Hc1 Hin1]].
    apply in_map_iff in Hc' as [[c2 col2] [Hc2 Hin2]]. simpl in Hc1, Hc2. subst.
    apply filter_In in Hin1 as [Hin1 Hr1]. apply filter_In in Hin2 as [Hin2 Hr2].
    rewrite (nodup_fst_functional df c col1 col2 Hnd Hin1 Hin2) in Hr1.
    rewrite Hr1 in Hr2. discriminate.
  - intros c. unfold columns. split.
    + intros Hc. apply in_map_iff in Hc as [[c1 col1] [Hc1 Hin1]]. simpl in Hc1. subst.
      destruct (PrimFloat.ltb (distinct_ratio col1) thresh) eqn:Hr.
      * left. apply (in_map fst _ (c, col1)). apply filter_In. auto.
      * right. apply (in_map fst _ (c, col1)). apply filter_In. rewrite Hr. auto.
    + intros [Hc | Hc]; apply in_map_iff in Hc as [x [Hx Hin]];
        apply filter_In in Hin as [Hin _]; subst; apply in_map; exact Hin.
Qed.

Lemma categorical_continuous_spec_witness :
  NoDup (columns [("a", IntCol [1; 1; 1]); ("b", IntCol [1; 2; 3])]) /\
  let '(cat, con) := categorical_continuous 0.5 [("a", IntCol [1; 1; 1]); ("b", IntCol [1; 2; 3])] in
  cat = map fst (filter (fun '(_, col) => PrimFloat.ltb (distinct_ratio col) 0.5)
                   [("a", IntCol [1; 1; 1]); ("b", IntCol [1; 2; 3])]) /\
  con = map fst (filter (fun '(_, col) => negb (PrimFloat.ltb (distinct_ratio col) 0.5))
                   [("a", IntCol [1; 1; 1]); ("b", IntCol [1; 2; 3])]) /\
  (forall c, In c cat -> ~ In c con) /\
  (forall c, In c (columns [("a", IntCol [1; 1; 1]); ("b", IntCol [1; 2; 3])])
             <-> In c cat \/ In c con).
Proof.
  assert (Hnd : NoDup (columns [("a", IntCol [1; 1; 1]); ("b", IntCol [1; 2; 3])])).
  { simpl. repeat constructor; simpl; intuition discriminate. }
  split; [exact Hnd |].
  exact (categorical_continuous_spec 0.5 _ Hnd).
Defined.

(** ** GEM: the transformer's spending comes out of the training budget *)

Lemma slide_preserves (st st' : adapter) (df df' : dataset) :
  slide st df = Ok (df', st') ->
  kind st' = kind st /\ epsilon st' = epsilon st /\ attrs st' = attrs st /\ G st' = G st.
Proof.
  unfold slide. destruct (bool_attr st "slide_range").
  - destruct (slide_range_forward df) as [[d tr] | e m]; simpl; intros H; inversion H; auto.
  - intros H. inversion H. auto.
Qed.

(** C2: when GEM's fit reaches [_get_train_data] with a transformer that is
    not yet fitted and that then reports a strictly positive spend on its
    odometer, the spend is subtracted from [self.epsilon]: if what remains
    is below [10E-3] (0.01) fit raises the budget [ValueError]; otherwise
    fit succeeds only with [self.epsilon] equal to the remainder, which is
    the epsilon the GEM optimiser is started with, after the transformer
    was fitted. *)
Theorem gem_fit_deducts_transformer_spend (st : adapter) (df : dataset)
  (targ : transformer_arg) (created t : table_transformer)
  (pe : option float) (trained : nat -> dataset) (df1 : dataset) (st1 : adapter)
  (Hcat : categorical_check st df = true)
  (Hslide : slide st df = Ok (df1, st1))
  (Ht : resolve_transformer targ created = Ok t)
  (Hfresh : fit_complete t = false)
  (Hneeds : needs_epsilon_error t pe = false)
  (Hspent : PrimFloat.ltb 0.0 (odometer_spent t) = true) :
  let remaining := PrimFloat.sub (epsilon st) (odometer_spent t) in
  (PrimFloat.ltb remaining 10E-3 = true ->
   gem_fit st df targ created pe trained = Err ValueError "Epsilon remaining is too small!") /\
  (forall st' calls, gem_fit st df targ created pe trained = Ok (st', calls) ->
   PrimFloat.ltb remaining 10E-3 = false /\ epsilon st' = remaining /\
   exists T, calls = [TransformerFit df1 pe; GEMTrain T remaining]).
Proof.
  destruct (slide_preserves _ _ _ _ Hslide) as [_ [Heps _]].
  unfold gem_fit, gem_get_train_data. rewrite Hcat, Hslide. simpl.
  rewrite Ht. simpl. rewrite Hfresh, Hneeds. simpl. rewrite Hspent. simpl.
  rewrite Heps.
  split.
  - intros Hlt. rewrite Hlt. reflexivity.
  - intros st' calls.
    destruct (PrimFloat.ltb (PrimFloat.sub (epsilon st) (odometer_spent t)) 10E-3) eqn:Hlt;
      [discriminate |].
    simpl.
    match goal with |- context [if existsb ?f (cardinality t) then _ else _] =>
      destruct (existsb f (cardinality t)); [discriminate |] end.
    destruct (negb (Nat.eqb (List.length (cardinality t)) (output_width t))); [discriminate |].
    intros H. inversion H. subst. simpl. split; [reflexivity | split; [reflexivity |]].
    eexists. reflexivity.
Qed.

Lemma gem_fit_deducts_transformer_spend_witness :
  let st := mk_adapter GEMSynthesizer 1.0%float [("thresh", PyFloat 0.6); ("slide_range", PyBool false)] None None in
  let df := [("a", IntCol [1; 1; 1; 2])] in
  let t := mk_transformer false true 0.995%float [Some 2] 1 in
  categorical_check st df = true /\
  slide st df = Ok (df, st) /\
  resolve_transformer (TransformerObj t) t = Ok t /\
  fit_complete t = false /\
  needs_epsilon_error t (Some 0.995%float) = false /\
  PrimFloat.ltb 0.0 (odometer_spent t) = true /\
  gem_fit st df (TransformerObj t) t (Some 0.995%float) (fun _ => df)
    = Err ValueError "Epsilon remaining is too small!".
Proof.
  intros st df t.
  assert (Hcat : categorical_check st df = true) by reflexivity.
  assert (Hslide : slide st df = Ok (df, st)) by reflexivity.
  assert (Ht : resolve_transformer (TransformerObj t) t = Ok t) by reflexivity.
  assert (Hfresh : fit_complete t = false) by reflexivity.
  assert (Hneeds : needs_epsilon_error t (Some 0.995%float) = false) by reflexivity.
  assert (Hspent : PrimFloat.ltb 0.0 (odometer_spent t) = true) by reflexivity.
  repeat (split; [assumption |]).
  apply (proj1 (gem_fit_deducts_transformer_spend st df (TransformerObj t) t t
                  (Some 0.995%float) (fun _ => df) df st Hcat Hslide Ht Hfresh Hneeds Hspent)).
  vm_compute. reflexivity.
Defined.

(** ** MST: the preprocessing share of the budget *)

Lemma coerce_float_decl_float p v d x :
  coerce_option p v (PyFloat d) TFloat = Ok x ->
  exists f, x = PyFloat f /\ (v = PyNone -> f = d).
Proof.
  unfold coerce_option. destruct v as [| b | z | f | s |]; simpl.
  - intros H. inversion H. eauto.
  - intros H. inversion H. eexists. split; [reflexivity | discriminate].
  - destruct (float_of_Z_opt z); simpl; intros H; inversion H.
    eexists. split; [reflexivity | discriminate].
  - intros H. inversion H. eexists. split; [reflexivity | discriminate].
  - discriminate.
  - discriminate.
Qed.

(** C7: an [MSTSynthesizer] built from keyword arguments [kw] holds a
    [float] [preprocess_factor] (0.05 when [kw] does not give one), and
    its fit makes one call to the wrapped MST: [fit] with
    [preprocessor_eps = preprocess_factor * epsilon] on the mechanism that
    was built with the whole [epsilon]; the adapter's own budget is left
    unchanged. *)
Theorem mst_fit_preprocessor_budget (kw : list (string * pyval)) (st : adapter)
  (df : dataset) (st' : adapter) (calls : list call)
  (Hc : construct MSTSynthesizer kw = Ok st)
  (Hf : mst_fit st df = Ok (st', calls)) :
  exists pf df',
    getattr st "preprocess_factor" = Some (PyFloat pf) /\
    (arg kw "preprocess_factor" = PyNone -> pf = 0.05%float) /\
    epsilon st' = epsilon st /\
    calls = [MechFit (epsilon st) df' (PrimFloat.mul pf (epsilon st))].
Proof.
  destruct (construct_option_value MSTSynthesizer kw st "preprocess_factor"
              (PyFloat 0.05) TFloat Hc) as [x [Hx Hg]].
  { simpl. auto 6. }
  destruct (coerce_float_decl_float _ _ _ _ Hx) as [pf [-> Hdef]].
  unfold mst_fit in Hf. destruct (negb (categorical_check st df)); [discriminate |].
  destruct (slide st df) as [[df1 st1] |] eqn:Hs; simpl in Hf; [| discriminate].
  destruct (slide_preserves _ _ _ _ Hs) as (_ & He & Ha & _).
  inversion Hf; subst. exists pf, df1.
  unfold float_attr, getattr in *. rewrite He, Ha, Hg. auto.
Qed.

Lemma mst_fit_preprocessor_budget_witness :
  exists st st' calls,
    construct MSTSynthesizer [("epsilon", PyFloat 2.0)] = Ok st /\
    mst_fit st [("a", IntCol (repeat 1 40))] = Ok (st', calls) /\
    exists pf df',
      getattr st "preprocess_factor" = Some (PyFloat pf) /\
      (arg [("epsilon", PyFloat 2.0)] "preprocess_factor" = PyNone -> pf = 0.05%float) /\
      epsilon st' = epsilon st /\
      calls = [MechFit (epsilon st) df' (PrimFloat.mul pf (epsilon st))].
Proof.
  do 3 eexists.
  split; [reflexivity |]. split; [reflexivity |].
  eapply (mst_fit_preprocessor_budget [("epsilon", PyFloat 2.0)] _ [("a", IntCol (repeat 1 40))]);
    reflexivity.
Defined.

(** ** Sampling before fit *)

(** C4: on an adapter fresh from its constructor, [sample] fails with
    [AttributeError] for [GEMSynthesizer] (never with the must-fit
    [ValueError]).  [GEMSynthesizer.sample] means to stop with
    [assert self.G is not None, "Please fit the synthesizer first."], but
    [__init__] never sets [self.G], so reading it raises first: the
    [AttributeError] is a defect of [__init__], not the intended error.  For the other variants what happens is decided by what
    the wrapped mechanism (or, for [PrivBayes], the generator and the files
    on disk) does: with [slide_range] set, a data frame it returns is
    refused with [ValueError "Must fit synthesizer before sampling."] and
    its errors come through; with [slide_range] off, its result is returned
    as it is. *)
Theorem sample_before_fit (v : variant) (kw : list (string * pyval)) (st : adapter)
  (env : sample_env) (n : nat) (Hc : construct v kw = Ok st) :
  (v = GEMSynthesizer ->
   sample st env n = Err AttributeError "'GEMSynthesizer' object has no attribute 'G'") /\
  (v <> GEMSynthesizer -> bool_attr st "slide_range" = true ->
   sample st env n = match raw_sample st env n with
                     | Ok _ => Err ValueError "Must fit synthesizer before sampling."
                     | Err e m => Err e m
                     end) /\
  (v <> GEMSynthesizer -> bool_attr st "slide_range" = false ->
   sample st env n = raw_sample st env n).
Proof.
  destruct (construct_inv v kw st Hc) as (_ & _ & _ & _ & _ & _ & Hk & Hr & Hg).
  unfold sample, raw_sample, unslide. rewrite Hk, Hr, Hg.
  split; [| split].
  - intros ->. reflexivity.
  - intros Hv Hs. rewrite Hs.
    unfold bind. destruct v; try (exfalso; apply Hv; reflexivity);
      match goal with |- context [match ?m with Ok _ => _ | Err _ _ => _ end] =>
        destruct m end; reflexivity.
  - intros Hv Hs. rewrite Hs.
    unfold bind. destruct v; try (exfalso; apply Hv; reflexivity);
      match goal with |- context [match ?m with Ok _ => _ | Err _ _ => _ end] =>
        destruct m end; reflexivity.
Qed.

Lemma sample_before_fit_witness :
  exists st,
    construct MSTSynthesizer [("epsilon", PyFloat 1.0); ("slide_range", PyBool true)] = Ok st /\
    ((MSTSynthesizer = GEMSynthesizer ->
      sample st (mk_sample_env (fun _ => Ok [("a", IntCol [0; 1])]) [] (fun _ => [])) 3
        = Err AttributeError "'GEMSynthesizer' object has no attribute 'G'") /\
     (MSTSynthesizer <> GEMSynthesizer -> bool_attr st "slide_range" = true ->
      sample st (mk_sample_env (fun _ => Ok [("a", IntCol [0; 1])]) [] (fun _ => [])) 3
        = match raw_sample st (mk_sample_env (fun _ => Ok [("a", IntCol [0; 1])]) [] (fun _ => [])) 3 with
          | Ok _ => Err ValueError "Must fit synthesizer before sampling."
          | Err e m => Err e m
          end) /\
     (MSTSynthesizer <> GEMSynthesizer -> bool_attr st "slide_range" = false ->
      sample st (mk_sample_env (fun _ => Ok [("a", IntCol [0; 1])]) [] (fun _ => [])) 3
        = raw_sample st (mk_sample_env (fun _ => Ok [("a", IntCol [0; 1])]) [] (fun _ => [])) 3)).
Proof.
  eexists. split; [reflexivity |].
  eapply (sample_before_fit MSTSynthesizer [("epsilon", PyFloat 1.0); ("slide_range", PyBool true)]).
  reflexivity.
Defined.

(** A fresh [GEMSynthesizer] raises [AttributeError]; a fresh [PrivBayes]
    (with the default [slide_range]) samples from a description file left
    in [temp] by an earlier run. *)
Lemma sample_before_fit_cex :
  (exists st,
     construct GEMSynthesizer [("epsilon", PyFloat 1.0)] = Ok st /\
     sample st (mk_sample_env (fun _ => Ok []) [] (fun _ => [])) 5
       = Err AttributeError "'GEMSynthesizer' object has no attribute 'G'") /\
  (exists st,
     construct PrivBayes [("epsilon", PyFloat 1.0)] = Ok st /\
     sample st (mk_sample_env (fun _ => Ok []) ["temp/privbayes_description.csv"]
                  (fun _ => [("a", IntCol [1; 2; 2; 1; 1])])) 5
       = Ok [("a", IntCol [1; 2; 2; 1; 1])]).
Proof.
  split; eexists; split; reflexivity.
Qed.

(** ** The categorical check in [fit] *)



Lemma filter_length_lt {A} (f : A -> bool) (l : list A) (x : A) :
  In x l -> f x = false -> (List.length (filter f l) < List.length l)%nat.
Proof.
  induction l as [| y r IH]; simpl; [contradiction |].
  intros [-> | Hin] Hf.
  - rewrite Hf. pose proof (filter_length_le f r) as Hle.
    unfold lt. apply le_n_S. exact Hle.
  - destruct (f y); simpl; [apply (proj1 (Nat.succ_lt_mono _ _)), IH; assumption |].
    apply Nat.lt_lt_succ_r, IH; assumption.
Qed.

(** [categorical_check] fails exactly when some column's ratio is not below
    [thresh]. *)
Lemma categorical_check_false (st : adapter) (df : dataset) :
  categorical_check st df = false <->
  exists c col, In (c, col) df /\
                PrimFloat.ltb (distinct_ratio col) (float_attr st "thresh") = false.
Proof.
  unfold categorical_check. rewrite (proj1 (categorical_continuous_filter _ _)).
  unfold columns. rewrite !length_map. split.
  - intros H. apply Nat.eqb_neq in H.
    destruct (existsb (fun '(_, col) => negb (PrimFloat.ltb (distinct_ratio col)
                                                 (float_attr st "thresh"))) df) eqn:He.
    + apply existsb_exists in He as [[c col] [Hin Hc]].
      exists c, col. split; [exact Hin |]. destruct (PrimFloat.ltb _ _); auto.
    + exfalso. apply H. clear H. induction df as [| [c col] r IH]; [reflexivity |].
      simpl in He |- *. apply orb_false_iff in He as [Hc Hr].
      destruct (PrimFloat.ltb _ _); [| discriminate]. simpl. f_equal. auto.
  - intros (c & col & Hin & Hf). apply Nat.eqb_neq.
    pose proof (filter_length_lt (fun '(_, col) => PrimFloat.ltb (distinct_ratio col)
                                                     (float_attr st "thresh"))
                  df (c, col) Hin Hf). lia.
Qed.





(** ** PrivBayes: binning before the describer *)




(** ** Further properties *)

Lemma col_min_err (col : column) e msg :
  col_min col = Err e msg ->
  e = ValueError /\ msg = "min() arg is an empty sequence" /\
  (col = IntCol [] \/ col = FloatCol []).
Proof.
  destruct col as [[| x r] | [| x r]]; simpl; intros H; inversion H; auto.
Qed.

Lemma col_min_empty (col : column) :
  col = IntCol [] \/ col = FloatCol [] ->
  col_min col = Err ValueError "min() arg is an empty sequence".
Proof. intros [-> | ->]; reflexivity. Qed.

Lemma col_min_nonempty (col : column) :
  col <> IntCol [] -> col <> FloatCol [] -> exists m, col_min col = Ok m.
Proof.
  destruct col as [[| x r] | [| x r]]; simpl; intros H1 H2;
    try congruence; eexists; reflexivity.
Qed.

Lemma slide_forward_loop_err (df : dataset) :
  forall tr e msg, slide_forward_loop df tr = Err e msg ->
  e = ValueError /\ msg = "min() arg is an empty sequence".
Proof.
  induction df as [| [c col] rest IH]; simpl; intros tr e msg H; [discriminate |].
  destruct (col_min col) as [m | e' msg'] eqn:Hm; simpl in H.
  - destruct (scalar_pos m).
    + destruct (slide_forward_loop rest ((c, m) :: tr)) as [[r t] | e' msg'] eqn:Hr;
        simpl in H; [discriminate |]. inversion H; subst. exact (IH _ _ _ Hr).
    + destruct (slide_forward_loop rest tr) as [[r t] | e' msg'] eqn:Hr;
        simpl in H; [discriminate |]. inversion H; subst. exact (IH _ _ _ Hr).
  - inversion H; subst. destruct (col_min_err _ _ _ Hm) as (? & ? & _). auto.
Qed.

Lemma slide_forward_loop_empty (df : dataset) :
  forall tr, (exists c col, In (c, col) df /\ (col = IntCol [] \/ col = FloatCol [])) ->
  is_ok (slide_forward_loop df tr) = false.
Proof.
  induction df as [| [c col] rest IH]; simpl; intros tr (c' & col' & Hin & He);
    [contradiction |].
  destruct Hin as [Heq | Hin].
  - inversion Heq; subst. rewrite (col_min_empty _ He). reflexivity.
  - destruct (col_min col) as [m |]; simpl; [| reflexivity].
    destruct (scalar_pos m).
    + specialize (IH ((c, m) :: tr) (ex_intro _ c' (ex_intro _ col' (conj Hin He)))).
      destruct (slide_forward_loop rest ((c, m) :: tr)) as [[r t] |]; simpl;
        [discriminate | reflexivity].
    + specialize (IH tr (ex_intro _ c' (ex_intro _ col' (conj Hin He)))).
      destruct (slide_forward_loop rest tr) as [[r t] |]; simpl;
        [discriminate | reflexivity].
Qed.

Lemma slide_forward_loop_nonempty (df : dataset) :
  forall tr, (forall c col, In (c, col) df -> col <> IntCol [] /\ col <> FloatCol []) ->
  is_ok (slide_forward_loop df tr) = true.
Proof.
  induction df as [| [c col] rest IH]; simpl; intros tr Hne; [reflexivity |].
  destruct (Hne c col (or_introl eq_refl)) as [H1 H2].
  destruct (col_min_nonempty _ H1 H2) as [m Hm]. rewrite Hm. simpl.
  assert (Hr : forall c col, In (c, col) rest -> col <> IntCol [] /\ col <> FloatCol [])
    by (intros; apply (Hne c0); tauto).
  destruct (scalar_pos m).
  - specialize (IH ((c, m) :: tr) Hr).
    destruct (slide_forward_loop rest ((c, m) :: tr)) as [[r t] |]; simpl;
      [reflexivity | discriminate].
  - specialize (IH tr Hr).
    destruct (slide_forward_loop rest tr) as [[r t] |]; simpl;
      [reflexivity | discriminate].
Qed.

Lemma slide_forward_loop_shape (df : dataset) :
  forall tr df' tr', slide_forward_loop df tr = Ok (df', tr') ->
  Forall2 forward_step df df' /\
  (forall c m, In (c, m) tr' <->
     In (c, m) tr \/ exists col, In (c, col) df /\ col_min col = Ok m /\ scalar_pos m = true).
Proof.
  induction df as [| [c col] rest IH]; simpl; intros tr df' tr' H.
  - inversion H; subst. split; [constructor |]. intros c m. split; [tauto |].
    intros [Hm | (col & [] & _)]; exact Hm.
  - destruct (col_min col) as [m |] eqn:Hm; simpl in H; [| discriminate].
    destruct (scalar_pos m) eqn:Hpos.
    + destruct (slide_forward_loop rest ((c, m) :: tr)) as [[r t] |] eqn:Hr;
        simpl in H; inversion H; subst.
      destruct (IH _ _ _ Hr) as [HF Htr]. split.
      * constructor; [| exact HF]. split; [reflexivity |]. exists m. rewrite Hpos. auto.
      * intros c' m'. rewrite Htr. simpl. split.
        -- intros [[Heq | Hin] | (col' & Hin & Hm' & Hp)].
           ++ inversion Heq; subst. right. exists col. auto.
           ++ left. exact Hin.
           ++ right. exists col'. auto.
        -- intros [Hin | (col' & [Heq | Hin] & Hm' & Hp)].
           ++ left. right. exact Hin.
           ++ inversion Heq; subst. left. left. congruence.
           ++ right. exists col'. auto.
    + destruct (slide_forward_loop rest tr) as [[r t] |] eqn:Hr;
        simpl in H; inversion H; subst.
      destruct (IH _ _ _ Hr) as [HF Htr]. split.
      * constructor; [| exact HF]. split; [reflexivity |]. exists m. rewrite Hpos. auto.
      * intros c' m'. rewrite Htr. split.
        -- intros [Hin | (col' & Hin & Hm' & Hp)]; [left; exact Hin |].
           right. exists col'. auto.
        -- intros [Hin | (col' & [Heq | Hin] & Hm' & Hp)].
           ++ left. exact Hin.
           ++ inversion Heq; subst. congruence.
           ++ right. exists col'. auto.
Qed.

(** [slide_range_forward] raises [min()]'s [ValueError] as soon as the
    data frame has an empty column, and succeeds on every data frame whose
    columns are all non-empty. *)
Theorem slide_range_forward_empty_column (df : dataset) :
  ((exists c col, In (c, col) df /\ (col = IntCol [] \/ col = FloatCol [])) ->
   slide_range_forward df = Err ValueError "min() arg is an empty sequence") /\
  ((forall c col, In (c, col) df -> col <> IntCol [] /\ col <> FloatCol []) ->
   exists df' tr, slide_range_forward df = Ok (df', tr)).
Proof.
  unfold slide_range_forward. split.
  - intros Hex. pose proof (slide_forward_loop_empty df [] Hex) as H.
    destruct (slide_forward_loop df []) as [r | e msg] eqn:Hf; [discriminate |].
    destruct (slide_forward_loop_err _ _ _ _ Hf) as [-> ->]. reflexivity.
  - intros Hne. pose proof (slide_forward_loop_nonempty df [] Hne) as H.
    destruct (slide_forward_loop df []) as [[r t] | e msg]; [| discriminate].
    eexists; eexists; reflexivity.
Qed.

(** The forward pass keeps the column names and order; it replaces each
    column with a positive minimum [m] by [col - m] and leaves the others;
    the mapping it returns holds exactly the pairs [(c, m)] of the shifted
    columns. *)
Theorem slide_range_forward_columns (df df' : dataset) (tr : transform) :
  slide_range_forward df = Ok (df', tr) ->
  Forall2 forward_step df df' /\
  (forall c m, In (c, m) tr <->
     exists col, In (c, col) df /\ col_min col = Ok m /\ scalar_pos m = true).
Proof.
  intros H. destruct (slide_forward_loop_shape _ _ _ _ H) as [HF Htr].
  split; [exact HF |]. intros c m. rewrite Htr. simpl. tauto.
Qed.

Lemma slide_range_forward_columns_witness :
  exists df' tr,
    slide_range_forward [("a", IntCol [3; 5]); ("b", IntCol [-1; 2])] = Ok (df', tr) /\
    Forall2 forward_step [("a", IntCol [3; 5]); ("b", IntCol [-1; 2])] df' /\
    (forall c m, In (c, m) tr <->
       exists col, In (c, col) [("a", IntCol [3; 5]); ("b", IntCol [-1; 2])] /\
                   col_min col = Ok m /\ scalar_pos m = true).
Proof.
  exists [("a", IntCol [0; 2]); ("b", IntCol [-1; 2])], [("a", SInt 3)].
  assert (Hf : slide_range_forward [("a", IntCol [3; 5]); ("b", IntCol [-1; 2])]
               = Ok ([("a", IntCol [0; 2]); ("b", IntCol [-1; 2])], [("a", SInt 3)]))
    by (vm_compute; reflexivity).
  split; [exact Hf |]. exact (slide_range_forward_columns _ _ _ Hf).
Defined.

(** Python's [min] over [int]s is [Z.min]. *)
Lemma fold_ltb_min (r : list Z) (x : Z) :
  fold_left (fun cur y => if y <? cur then y else cur) r x = fold_left Z.min r x.
Proof.
  revert x. induction r as [| y r IH]; simpl; intros x; [reflexivity |].
  rewrite IH. f_equal. destruct (Z.ltb_spec y x); lia.
Qed.

Lemma fold_min_le (r : list Z) (x : Z) :
  fold_left Z.min r x <= x /\ forall y, In y r -> fold_left Z.min r x <= y.
Proof.
  revert x. induction r as [| y r IH]; simpl; intros x; [split; [lia | tauto] |].
  destruct (IH (Z.min x y)) as [H1 H2]. split; [lia |].
  intros z [-> | Hz]; [lia | auto].
Qed.

Lemma fold_min_shift (r : list Z) (x m : Z) :
  fold_left Z.min (map (fun y => y - m) r) (x - m) = fold_left Z.min r x - m.
Proof.
  revert x. induction r as [| y r IH]; simpl; intros x; [reflexivity |].
  rewrite <- IH. f_equal. lia.
Qed.

(** On an [int64] column the forward pass never wraps around: the column
    stays [int64] and its minimum [m] becomes [min(m, 0)], so a shifted
    column has minimum 0 and no negative value. *)
Theorem slide_range_forward_int64_min (df df' : dataset) (tr : transform) :
  slide_range_forward df = Ok (df', tr) ->
  Forall2 (fun a b => int64_column (snd a) = true ->
             int64_column (snd b) = true /\
             exists m, col_min (snd a) = Ok (SInt m) /\ col_min (snd b) = Ok (SInt (Z.min m 0)))
          df df'.
Proof.
  intros H. destruct (slide_forward_loop_shape _ _ _ _ H) as [HF _].
  eapply Forall2_impl; [| exact HF].
  intros [c col] [c' col'] [_ (m & Hm & Hcol)]. simpl in *. subst col'.
  destruct col as [[| x r] | xs]; simpl; intros Hint; [discriminate | | discriminate].
  change (forallb int64_ok (x :: r) = true) in Hint.
  simpl in Hm. inversion Hm; subst m. clear Hm.
  rewrite fold_ltb_min in *.
  set (m := fold_left Z.min r x).
  destruct (fold_min_le r x) as [Hmx Hmr].
  cbn [scalar_pos]. destruct (Z.ltb_spec 0 m) as [Hpos | Hneg].
  - cbn [col_sub col_arith map].
    assert (Hw : forall y, In y (x :: r) -> wrap64 (y - m) = y - m).
    { intros y Hy. apply wrap64_small.
      assert (Hok : int64_ok y = true) by (eapply forallb_forall; [exact Hint | exact Hy]).
      unfold int64_ok in *. apply andb_true_iff in Hok as [H1 H2].
      apply Z.leb_le in H1. apply Z.ltb_lt in H2.
      assert (m <= y) by (destruct Hy as [<- | Hy]; [lia | auto]).
      apply andb_true_iff. split; [apply Z.leb_le | apply Z.ltb_lt]; unfold two63 in *; lia. }
    rewrite (Hw x (or_introl eq_refl)).
    rewrite (map_ext_in _ (fun y => y - m) r) by (intros y Hy; apply Hw; right; exact Hy).
    split.
    + simpl. apply andb_true_iff. split.
      * rewrite <- (Hw x (or_introl eq_refl)). unfold wrap64, int64_ok.
        apply andb_true_iff. split; [apply Z.leb_le | apply Z.ltb_lt].
        -- pose proof (Z.mod_pos_bound (x - m + two63) (2 * two63)). unfold two63 in *. lia.
        -- pose proof (Z.mod_pos_bound (x - m + two63) (2 * two63)). unfold two63 in *. lia.
      * apply forallb_forall. intros z Hz. apply in_map_iff in Hz as (y & <- & Hy).
        rewrite <- (Hw y (or_intror Hy)). unfold wrap64, int64_ok.
        apply andb_true_iff. split; [apply Z.leb_le | apply Z.ltb_lt].
        -- pose proof (Z.mod_pos_bound (y - m + two63) (2 * two63)). unfold two63 in *. lia.
        -- pose proof (Z.mod_pos_bound (y - m + two63) (2 * two63)). unfold two63 in *. lia.
    + exists m. split; [reflexivity |]. simpl.
      rewrite fold_ltb_min, fold_min_shift. fold m.
      replace (m - m) with (Z.min m 0) by lia. reflexivity.
  - split; [exact Hint |]. exists m. split; [reflexivity |]. simpl.
    rewrite fold_ltb_min. fold m. replace (Z.min m 0) with m by lia. reflexivity.
Qed.

Lemma slide_range_forward_int64_min_witness :
  exists df' tr,
    slide_range_forward [("a", IntCol [3; 5]); ("b", IntCol [-1; 2])] = Ok (df', tr) /\
    Forall2 (fun a b => int64_column (snd a) = true ->
               int64_column (snd b) = true /\
               exists m, col_min (snd a) = Ok (SInt m) /\ col_min (snd b) = Ok (SInt (Z.min m 0)))
            [("a", IntCol [3; 5]); ("b", IntCol [-1; 2])] df'.
Proof.
  exists [("a", IntCol [0; 2]); ("b", IntCol [-1; 2])], [("a", SInt 3)].
  assert (Hf : slide_range_forward [("a", IntCol [3; 5]); ("b", IntCol [-1; 2])]
               = Ok ([("a", IntCol [0; 2]); ("b", IntCol [-1; 2])], [("a", SInt 3)]))
    by (vm_compute; reflexivity).
  split; [exact Hf |]. exact (slide_range_forward_int64_min _ _ _ Hf).
Defined.

Lemma float_nan_spec (x : float) : float_is_nan x = true -> Prim2SF x = S754_nan.
Proof.
  unfold float_is_nan. rewrite eqb_spec. unfold SFeqb.
  destruct (Prim2SF x) as [s | s | | s m e]; try destruct s; simpl; try discriminate;
    [reflexivity | |];
    change IntDef.Z.compare with Z.compare; rewrite Z.compare_refl;
    change (PosDef.Pos.compare_cont Eq m m) with (Pos.compare m m);
    rewrite Pos.compare_refl; discriminate.
Qed.

Lemma float_ltb_nan_r (y x : float) : float_is_nan x = true -> PrimFloat.ltb y x = false.
Proof.
  intros H. rewrite ltb_spec, (float_nan_spec x H). unfold SFltb.
  destruct (Prim2SF y) as [[] | [] | | [] ? ?]; reflexivity.
Qed.

Lemma fold_float_min_nan (r : list float) (x : float) :
  float_is_nan x = true ->
  fold_left (fun cur y => if PrimFloat.ltb y cur then y else cur) r x = x.
Proof.
  revert x. induction r as [| y r IH]; simpl; intros x Hx; [reflexivity |].
  rewrite (float_ltb_nan_r y x Hx). exact (IH x Hx).
Qed.

Lemma lookup_in {A} (k : string) (l : list (string * A)) v :
  lookup k l = Some v -> In (k, v) l.
Proof.
  induction l as [| [k' v'] l IH]; simpl; intros H; [discriminate |].
  destruct (String.eqb_spec k k'); [inversion H; subst; left; reflexivity |].
  right. exact (IH H).
Qed.

Lemma Forall2_in_l {A B} (R : A -> B -> Prop) l1 l2 a :
  Forall2 R l1 l2 -> In a l1 -> exists b, In b l2 /\ R a b.
Proof.
  intros HF. induction HF as [| x y l1 l2 Hxy HF IH]; simpl; [tauto |].
  intros [<- | Hin]; [exists y; auto |].
  destruct (IH Hin) as (b & Hb & Hr). exists b. auto.
Qed.

(** Python's [min] never replaces a NaN first element (every comparison
    with NaN is false), so a [float64] column that starts with NaN is never
    shifted and never enters the mapping, whatever its other values. *)
Theorem slide_range_forward_nan_first (df df' : dataset) (tr : transform)
  (c : string) (x : float) (r : list float) :
  slide_range_forward df = Ok (df', tr) ->
  NoDup (columns df) ->
  In (c, FloatCol (x :: r)) df -> float_is_nan x = true ->
  In (c, FloatCol (x :: r)) df' /\ lookup c tr = None.
Proof.
  intros Hf Hnd Hin Hnan.
  destruct (slide_forward_loop_shape _ _ _ _ Hf) as [HF Htr].
  assert (Hmin : col_min (FloatCol (x :: r)) = Ok (SFloat x)).
  { simpl. rewrite (fold_float_min_nan r x Hnan). reflexivity. }
  assert (Hnp : scalar_pos (SFloat x) = false) by (apply float_ltb_nan_r; exact Hnan).
  split.
  - destruct (Forall2_in_l _ _ _ _ HF Hin) as ([c' col'] & Hin' & Heq & m & Hm & Hcol).
    cbn [fst snd] in *. subst c'. rewrite Hmin in Hm. inversion Hm; subst m.
    rewrite Hnp in Hcol. subst col'. exact Hin'.
  - destruct (lookup c tr) as [m |] eqn:Hl; [| reflexivity].
    apply lookup_in in Hl. apply Htr in Hl as [[] | (col & Hin2 & Hm & Hp)].
    pose proof (nodup_fst_functional df c _ _ Hnd Hin Hin2) as <-.
    rewrite Hmin in Hm. inversion Hm; subst m. congruence.
Qed.

Lemma slide_range_forward_nan_first_witness :
  exists df' tr,
    slide_range_forward [("a", FloatCol [PrimFloat.nan; 5.0%float]); ("b", IntCol [2; 4])]
      = Ok (df', tr) /\
    In ("a", FloatCol [PrimFloat.nan; 5.0%float]) df' /\ lookup "a" tr = None.
Proof.
  exists [("a", FloatCol [PrimFloat.nan; 5.0%float]); ("b", IntCol [0; 2])], [("b", SInt 2)].
  assert (Hf : slide_range_forward [("a", FloatCol [PrimFloat.nan; 5.0%float]); ("b", IntCol [2; 4])]
      = Ok ([("a", FloatCol [PrimFloat.nan; 5.0%float]); ("b", IntCol [0; 2])], [("b", SInt 2)]))
    by (vm_compute; reflexivity).
  split; [exact Hf |].
  apply (slide_range_forward_nan_first _ _ _ "a" PrimFloat.nan [5.0%float] Hf).
  - simpl. repeat constructor; simpl; intuition discriminate.
  - left. reflexivity.
  - vm_compute. reflexivity.
Defined.

Lemma slide_bool_attr (st st1 : adapter) (df df1 : dataset) p :
  slide st df = Ok (df1, st1) -> bool_attr st1 p = bool_attr st p.
Proof.
  intros H. destruct (slide_preserves _ _ _ _ H) as (_ & _ & Ha & _).
  unfold bool_attr, getattr. rewrite Ha. reflexivity.
Qed.

Lemma slide_transform (st st1 : adapter) (df df1 : dataset) :
  slide st df = Ok (df1, st1) ->
  (bool_attr st "slide_range" = true ->
   exists tr, slide_range_forward df = Ok (df1, tr) /\ range_transform st1 = Some tr) /\
  (bool_attr st "slide_range" = false -> df1 = df /\ st1 = st).
Proof.
  unfold slide. destruct (bool_attr st "slide_range").
  - destruct (slide_range_forward df) as [[d t] |]; simpl; intros H; [| discriminate].
    inversion H; subst. split; [| discriminate]. intros _. exists t. auto.
  - intros H. inversion H; subst. split; [discriminate | auto].
Qed.

(** [_unslide_range] on the adapter state left by [_slide_range] maps the
    slid data back column by column ([roundtrip_column]); with
    [slide_range] off both are the identity. *)
Theorem unslide_after_slide (st st1 : adapter) (df df1 : dataset) :
  slide st df = Ok (df1, st1) ->
  NoDup (columns df) ->
  unslide st1 df1
    = Ok (if bool_attr st "slide_range"
          then map (fun '(c, col) => (c, roundtrip_column col)) df else df).
Proof.
  intros Hs Hnd. unfold unslide. rewrite (slide_bool_attr _ _ _ _ _ Hs).
  destruct (slide_transform _ _ _ _ Hs) as [Hon Hoff].
  destruct (bool_attr st "slide_range").
  - destruct (Hon eq_refl) as (tr & Hf & ->). f_equal.
    exact (slide_forward_loop_backward df [] df1 tr Hf Hnd (fun c _ => eq_refl)).
  - destruct (Hoff eq_refl) as [-> _]. reflexivity.
Qed.







(** After a successful [GEMSynthesizer.fit], [sample(n)] returns the
    trained generator's output, shifted back by the fitted mapping when
    [slide_range] is on; the missing-attribute error is gone. *)
Theorem gem_sample_after_fit (st : adapter) (df : dataset) (targ : transformer_arg)
  (created : table_transformer) (pe : option float) (trained : nat -> dataset)
  (st' : adapter) (calls : list call) (env : sample_env) (n : nat) :
  kind st = GEMSynthesizer ->
  gem_fit st df targ created pe trained = Ok (st', calls) ->
  (bool_attr st "slide_range" = true ->
   exists df1 tr, slide_range_forward df = Ok (df1, tr) /\
     sample st' env n = Ok (slide_range_backward (trained n) tr)) /\
  (bool_attr st "slide_range" = false -> sample st' env n = Ok (trained n)).
Proof.
  intros Hk Hf. unfold gem_fit in Hf.
  destruct (negb (categorical_check st df)); [discriminate |].
  destruct (slide st df) as [[df1 st1] |] eqn:Hs; simpl in Hf; [| discriminate].
  destruct (gem_get_train_data st1 df1 targ created pe) as [[[st2 t] c] |] eqn:Hg;
    simpl in Hf; [| discriminate].
  destruct (existsb _ _); [discriminate |].
  destruct (negb _); [discriminate |]. inversion Hf; subst st' calls. clear Hf.
  assert (Hst2 : kind st2 = kind st1 /\ attrs st2 = attrs st1 /\
                 range_transform st2 = range_transform st1).
  { unfold gem_get_train_data in Hg.
    destruct (resolve_transformer targ created) as [t' |]; simpl in Hg; [| discriminate].
    destruct (negb (fit_complete t')).
    - destruct (needs_epsilon_error t' pe); [discriminate |].
      destruct (PrimFloat.ltb 0.0 (odometer_spent t')).
      + destruct (PrimFloat.ltb _ _); [discriminate |]. inversion Hg; subst. auto.
      + inversion Hg; subst. auto.
    - inversion Hg; subst. auto. }
  destruct Hst2 as (Hk2 & Ha2 & Hr2).
  destruct (slide_preserves _ _ _ _ Hs) as (Hk1 & _ & Ha1 & _).
  destruct (slide_transform _ _ _ _ Hs) as [Hon Hoff].
  unfold sample, with_G. cbn [kind G range_transform attrs]. rewrite Hk2, Hk1, Hk.
  unfold unslide, bool_attr, getattr. cbn [attrs range_transform]. rewrite Ha2, Ha1, Hr2.
  fold (getattr st "slide_range"). fold (bool_attr st "slide_range").
  split.
  - intros Hon'. rewrite Hon'. destruct (Hon Hon') as (tr & Hf & Htr).
    exists df1, tr. split; [exact Hf |]. rewrite Htr. reflexivity.
  - intros Hoff'. rewrite Hoff'. reflexivity.
Qed.

(** [PATECTGAN.fit] has no categorical check: whenever the slide succeeds
    it fits the mechanism on the slid data, with the columns classified on
    the slid data and [preprocessor_eps = preprocess_factor * epsilon]
    ([preprocess_factor] 0.05 by default). *)
Theorem patectgan_fit_budget (kw : list (string * pyval)) (st : adapter) (df df1 : dataset)
  (st1 : adapter) :
  construct PATECTGAN kw = Ok st ->
  slide st df = Ok (df1, st1) ->
  exists pf,
    (arg kw "preprocess_factor" = PyNone -> pf = 0.05%float) /\
    patectgan_fit st df
      = Ok (st1, [PateFit df1
                    (map fst (filter (fun '(_, col) =>
                       PrimFloat.ltb (distinct_ratio col) (float_attr st "thresh")) df1))
                    (map fst (filter (fun '(_, col) =>
                       negb (PrimFloat.ltb (distinct_ratio col) (float_attr st "thresh"))) df1))
                    (PrimFloat.mul pf (epsilon st))]).
Proof.
  intros Hc Hs.
  destruct (construct_option_value PATECTGAN kw st "preprocess_factor"
              (PyFloat 0.05) TFloat Hc) as [x [Hx Hg]].
  { simpl. auto 6. }
  destruct (coerce_float_decl_float _ _ _ _ Hx) as [pf [-> Hdef]].
  exists pf. split; [exact Hdef |].
  unfold patectgan_fit. rewrite Hs. simpl.
  destruct (categorical_continuous_filter (float_attr st1 "thresh") df1) as [H1 H2].
  destruct (categorical_continuous (float_attr st1 "thresh") df1) as [cat con].
  simpl in H1, H2. subst cat con.
  destruct (slide_preserves _ _ _ _ Hs) as (_ & He & Ha & _).
  unfold float_attr, getattr in *. rewrite He, Ha, Hg. reflexivity.
Qed.

(** [AIMTSynthesizer.fit] / [AIMSynthesizer.fit] raise the AIM
    [ValueError] exactly when some column's distinct ratio is not below
    [thresh]; when all are below, they fit the mechanism on the slid data. *)
Theorem aim_fit_categorical_check (st : adapter) (df : dataset) :
  (aim_fit st df = Err ValueError aim_msg <->
   exists c col, In (c, col) df /\
     PrimFloat.ltb (distinct_ratio col) (float_attr st "thresh") = false) /\
  (forall df1 st1, slide st df = Ok (df1, st1) ->
   (forall c col, In (c, col) df ->
      PrimFloat.ltb (distinct_ratio col) (float_attr st "thresh") = true) ->
   aim_fit st df = Ok (st1, [AIMFit df1])).
Proof.
  split.
  - rewrite <- categorical_check_false. unfold aim_fit.
    destruct (categorical_check st df); simpl; [| split; reflexivity].
    split; [| discriminate]. intros H.
    destruct (slide st df) as [[d s] | e msg] eqn:Hs; simpl in H; [discriminate |].
    inversion H; subst. unfold slide in Hs.
    destruct (bool_attr st "slide_range"); [| discriminate].
    destruct (slide_range_forward df) as [[d' t] | e' m'] eqn:Hf; simpl in Hs;
      [discriminate |]. inversion Hs; subst.
    destruct (slide_forward_loop_err _ _ _ _ Hf) as [_ Hm]. discriminate Hm.
  - intros df1 st1 Hs Hall. unfold aim_fit.
    destruct (categorical_check st df) eqn:Hc.
    + simpl. rewrite Hs. reflexivity.
    + apply categorical_check_false in Hc as (c & col & Hin & Hlt).
      rewrite (Hall c col Hin) in Hlt. discriminate.
Qed.

Lemma nan_ltb_any (t : float) : PrimFloat.ltb (PrimFloat.div (float_of_nat 0) (float_of_nat 0)) t = false.
Proof.
  rewrite ltb_spec.
  replace (Prim2SF (PrimFloat.div (float_of_nat 0) (float_of_nat 0))) with S754_nan
    by (vm_compute; reflexivity).
  reflexivity.
Qed.

Lemma null_column_ratio (col : column) (t : float) :
  count col = 0%nat -> PrimFloat.ltb (distinct_ratio col) t = false.
Proof.
  intros H. unfold distinct_ratio. replace (count col) with 0%nat.
  assert (Hn : nunique col = 0%nat).
  { destruct col as [xs | xs]; simpl in *.
    - destruct xs; [reflexivity | discriminate].
    - destruct (filter float_notna xs); [reflexivity | discriminate]. }
  rewrite Hn. apply nan_ltb_any.
Qed.

(** A column with no non-null cell (empty, or all NaN) has ratio
    [0 / 0 = NaN] and is continuous for every threshold: [MST], [AIM] and
    [GEM] [fit] reject the data frame with their categorical-check error
    (before the slide could raise [min()]'s). *)
Theorem null_column_rejected (st : adapter) (df : dataset) (c : string) (col : column) :
  In (c, col) df -> count col = 0%nat ->
  mst_fit st df = Err ValueError mst_msg /\
  aim_fit st df = Err ValueError aim_msg /\
  (forall targ created pe trained,
     gem_fit st df targ created pe trained = Err ValueError gem_msg) /\
  (forall t, In c (snd (categorical_continuous t df))).
Proof.
  intros Hin H0.
  assert (Hcat : categorical_check st df = false).
  { apply categorical_check_false. exists c, col. split; [exact Hin |].
    apply null_column_ratio. exact H0. }
  split; [| split; [| split]].
  - unfold mst_fit. rewrite Hcat. reflexivity.
  - unfold aim_fit. rewrite Hcat. reflexivity.
  - intros. unfold gem_fit. rewrite Hcat. reflexivity.
  - intros t. rewrite (proj2 (categorical_continuous_filter t df)).
    apply in_map_iff. exists (c, col). split; [reflexivity |].
    apply filter_In. split; [exact Hin |]. rewrite (null_column_ratio col t H0). reflexivity.
Qed.
Lemma SFcompare_key (f g : spec_float) :
  sf_notnan f = true -> sf_notnan g = true ->
  SFcompare f g = Some (lex (sf_key f) (sf_key g)).
Proof.
  destruct f as [sf | sf | | sf mf ef], g as [sg | sg | | sg mg eg];
    simpl; intros Hf Hg; try discriminate; try destruct sf; try destruct sg;
    try reflexivity; simpl.
  all: change IntDef.Z.compare with Z.compare;
       change (PosDef.Pos.compare_cont Eq mf mg) with (Pos.compare mf mg);
       change (PosDef.Pos.compare mf mg) with (Pos.compare mf mg).
  - rewrite (Z.compare_opp ef eg), (Z.compare_antisym ef eg).
    destruct (ef ?= eg); simpl; try reflexivity.
    simpl. destruct (mf ?= mg)%positive; reflexivity.
  - destruct (ef ?= eg); try reflexivity. simpl. destruct (mf ?= mg)%positive; reflexivity.
Qed.

Lemma lex_trans (a b c : list Z) :
  List.length a = List.length b -> List.length b = List.length c ->
  lex a b = Lt -> lex b c <> Gt -> lex a c = Lt.
Proof.
  revert b c. induction a as [| x a IH]; intros [| y b] [| z c]; simpl;
    intros Hab Hbc; try discriminate; try reflexivity.
  intros H1 H2.
  destruct (Z.compare_spec x y), (Z.compare_spec y z), (Z.compare_spec x z);
    try discriminate; try congruence; try lia.
  apply (IH b c); auto; lia.
Qed.

Lemma sf_key_length (f : spec_float) : sf_notnan f = true -> List.length (sf_key f) = 3%nat.
Proof. destruct f as [[] | [] | | [] ? ?]; simpl; congruence. Qed.

Lemma float_ltb_leb_trans (x y z : float) :
  PrimFloat.ltb x y = true -> PrimFloat.leb y z = true -> PrimFloat.ltb x z = true.
Proof.
  rewrite !ltb_spec, leb_spec. unfold SFltb, SFleb.
  destruct (sf_notnan (Prim2SF x)) eqn:Hx;
    [| destruct (Prim2SF x); try discriminate; simpl; discriminate].
  destruct (sf_notnan (Prim2SF y)) eqn:Hy;
    [| destruct (Prim2SF y); try discriminate; destruct (Prim2SF x); simpl; discriminate].
  destruct (sf_notnan (Prim2SF z)) eqn:Hz;
    [| intros _; destruct (Prim2SF z); try discriminate; destruct (Prim2SF y); simpl; discriminate].
  rewrite !SFcompare_key by assumption.
  intros H1 H2.
  rewrite (lex_trans (sf_key (Prim2SF x)) (sf_key (Prim2SF y)) (sf_key (Prim2SF z))).
  - reflexivity.
  - rewrite !sf_key_length by assumption. reflexivity.
  - rewrite !sf_key_length by assumption. reflexivity.
  - destruct (lex _ _); congruence.
  - destruct (lex (sf_key (Prim2SF y)) _); congruence.
Qed.

(** Raising [thresh] only moves columns from continuous to categorical:
    a column categorical under [t1] stays so under [t2 >= t1], and a data
    frame that passes the categorical check under [t1] passes it under
    [t2]. *)
Theorem categorical_thresh_monotone (t1 t2 : float) (df : dataset) (st1 st2 : adapter) :
  PrimFloat.leb t1 t2 = true ->
  incl (fst (categorical_continuous t1 df)) (fst (categorical_continuous t2 df)) /\
  incl (snd (categorical_continuous t2 df)) (snd (categorical_continuous t1 df)) /\
  (float_attr st1 "thresh" = t1 -> float_attr st2 "thresh" = t2 ->
   categorical_check st1 df = true -> categorical_check st2 df = true).
Proof.
  intros Hle.
  destruct (categorical_continuous_filter t1 df) as [A1 B1].
  destruct (categorical_continuous_filter t2 df) as [A2 B2].
  rewrite A1, B1, A2, B2.
  split; [| split].
  - intros c Hc. apply in_map_iff in Hc as ([c' col] & <- & Hin).
    apply filter_In in Hin as [Hin Hlt].
    apply in_map_iff. exists (c', col). split; [reflexivity |].
    apply filter_In. split; [exact Hin |]. exact (float_ltb_leb_trans _ _ _ Hlt Hle).
  - intros c Hc. apply in_map_iff in Hc as ([c' col] & <- & Hin).
    apply filter_In in Hin as [Hin Hlt].
    apply in_map_iff. exists (c', col). split; [reflexivity |].
    apply filter_In. split; [exact Hin |].
    destruct (PrimFloat.ltb (distinct_ratio col) t1) eqn:H1; [| reflexivity].
    rewrite (float_ltb_leb_trans _ _ _ H1 Hle) in Hlt. discriminate.
  - intros Ht1 Ht2 Hc1.
    destruct (categorical_check st2 df) eqn:Hc2; [reflexivity |].
    apply categorical_check_false in Hc2 as (c & col & Hin & Hlt).
    destruct (categorical_check st1 df) eqn:Hc1'; [| discriminate].
    destruct (PrimFloat.ltb (distinct_ratio col) t1) eqn:H1.
    + rewrite Ht2, (float_ltb_leb_trans _ _ _ H1 Hle) in Hlt. discriminate.
    + assert (Hf : categorical_check st1 df = false).
      { apply categorical_check_false. exists c, col. rewrite Ht1. auto. }
      congruence.
Qed.

(** [AIMSynthesizer] rejects a [rounds_factor] that is not a number with a
    [TypeError] whose message names [preprocess_factor]. *)
Theorem aim_rounds_factor_message (e : float) (v : pyval) :
  v <> PyNone -> isinstance v TInt = false -> isinstance v TFloat = false ->
  construct AIMSynthesizer [("epsilon", PyFloat e); ("rounds_factor", v)]
    = Err TypeError ("preprocess_factor must be of type float, got " ++ type_name v ++ ".").
Proof.
  intros Hn Hi Hf.
  destruct v as [| b | z | f | s |]; simpl in Hi, Hf; try discriminate; [congruence | |];
    reflexivity.
Qed.

Lemma aim_rounds_factor_message_witness :
  PyStr "0.1" <> PyNone /\ isinstance (PyStr "0.1") TInt = false /\
  isinstance (PyStr "0.1") TFloat = false /\
  construct AIMSynthesizer [("epsilon", PyFloat 1.0); ("rounds_factor", PyStr "0.1")]
    = Err TypeError ("preprocess_factor must be of type float, got " ++ type_name (PyStr "0.1") ++ ".").
Proof.
  split; [discriminate |]. split; [reflexivity |]. split; [reflexivity |].
  apply aim_rounds_factor_message; [discriminate | reflexivity | reflexivity].
Defined.

(** When the transformer is already fitted, or reports no positive spend,
    [GEMSynthesizer.fit] keeps [epsilon], starts the optimiser with it (no
    minimum is checked) and refits the transformer only if it was not
    fitted. *)
Theorem gem_fit_no_spend (st : adapter) (df : dataset) (t created : table_transformer)
  (pe : option float) (trained : nat -> dataset) (st' : adapter) (calls : list call) :
  gem_fit st df (TransformerObj t) created pe trained = Ok (st', calls) ->
  fit_complete t = true \/ PrimFloat.ltb 0.0 (odometer_spent t) = false ->
  epsilon st' = epsilon st /\
  exists df1, calls = app (if fit_complete t then [] else [TransformerFit df1 pe])
                          [GEMTrain (attr_value st "T") (epsilon st)].
Proof.
  intros Hf Hcase. unfold gem_fit in Hf.
  destruct (negb (categorical_check st df)); [discriminate |].
  destruct (slide st df) as [[df1 st1] |] eqn:Hs; simpl in Hf; [| discriminate].
  destruct (slide_preserves _ _ _ _ Hs) as (_ & He & Ha & _).
  unfold gem_get_train_data in Hf. cbn [resolve_transformer bind] in Hf.
  destruct (fit_complete t) eqn:Hfc; simpl in Hf.
  - destruct (existsb _ _); [discriminate |].
    destruct (negb _); [discriminate |]. inversion Hf; subst. clear Hf.
    unfold with_G, attr_value, getattr. simpl. rewrite He, Ha.
    split; [reflexivity |]. exists df1. reflexivity.
  - destruct Hcase as [Hc | Hc]; [discriminate |].
    destruct (needs_epsilon_error t pe); [discriminate |].
    rewrite Hc in Hf. simpl in Hf.
    destruct (existsb _ _); [discriminate |].
    destruct (negb _); [discriminate |]. inversion Hf; subst. clear Hf.
    unfold with_G, attr_value, getattr. simpl. rewrite He, Ha.
    split; [reflexivity |]. exists df1. reflexivity.
Qed.

Lemma gem_fit_no_spend_witness :
  let st := mk_adapter GEMSynthesizer 0.001%float
              [("thresh", PyFloat 0.6); ("slide_range", PyBool false); ("T", PyInt 100)] None None in
  let df := [("a", IntCol [1; 1; 1; 2])] in
  let t := mk_transformer true true 0.0%float [Some 2] 1 in
  exists st' calls,
    gem_fit st df (TransformerObj t) t None (fun _ => df) = Ok (st', calls) /\
    (fit_complete t = true \/ PrimFloat.ltb 0.0 (odometer_spent t) = false) /\
    epsilon st' = epsilon st /\
    exists df1, calls = app (if fit_complete t then [] else [TransformerFit df1 None])
                            [GEMTrain (attr_value st "T") (epsilon st)].
Proof.
  intros st df t.
  pose (r := match gem_fit st df (TransformerObj t) t None (fun _ => df) with
             | Ok r => r | Err _ _ => (st, []) end).
  assert (Hf : gem_fit st df (TransformerObj t) t None (fun _ => df) = Ok (fst r, snd r))
    by (vm_compute; reflexivity).
  exists (fst r), (snd r). split; [exact Hf |].
  assert (Hc : fit_complete t = true \/ PrimFloat.ltb 0.0 (odometer_spent t) = false)
    by (left; reflexivity).
  split; [exact Hc |].
  exact (gem_fit_no_spend _ _ _ _ _ _ _ _ Hf Hc).
Defined.


Lemma linspace01_length (q : Z) : List.length (linspace01 q) = Z.to_nat (q + 1).
Proof.
  unfold linspace01. destruct (0 <? q); rewrite length_map, length_seq; reflexivity.
Qed.

Lemma unique_floats_length (l : list float) : (List.length (unique_floats l) <= List.length l)%nat.
Proof.
  unfold unique_floats.
  assert (H : forall acc, (List.length (fold_left (fun acc x => if existsb (float_same x) acc
                                        then acc else app acc [x]) l acc)
                           <= List.length acc + List.length l)%nat).
  { induction l as [| x r IH]; simpl; intros acc; [lia |].
    destruct (existsb (float_same x) acc).
    - specialize (IH acc). lia.
    - specialize (IH (app acc [x])). rewrite length_app in IH. simpl in IH. lia. }
  exact (H []).
Qed.






Lemma slide_attr_value (st st1 : adapter) (df df1 : dataset) p :
  slide st df = Ok (df1, st1) -> attr_value st1 p = attr_value st p /\
  int_attr st1 p = int_attr st p /\ str_attr st1 p = str_attr st p.
Proof.
  intros H. destruct (slide_preserves _ _ _ _ H) as (_ & _ & Ha & _).
  unfold attr_value, int_attr, str_attr, getattr. rewrite Ha. auto.
Qed.


Lemma qcut_mid_nonpos (q : Z) (col : column) :
  q <= 0 -> col_values col <> [] -> is_ok (qcut_mid q col) = false.
Proof.
  intros Hq Hne. unfold qcut_mid.
  destruct (q <? -1) eqn:Hq1; [reflexivity |]. apply Z.ltb_ge in Hq1.
  set (xs := col_values col) in *.
  set (bins0 := qcut_bins xs q).
  assert (H0 : (List.length bins0 <= 1)%nat).
  { unfold bins0, qcut_bins. rewrite length_map, linspace01_length. lia. }
  set (bins := if Nat.ltb (List.length (unique_floats bins0)) (List.length bins0)
                  && negb (Nat.eqb (List.length bins0) 2)
               then unique_floats bins0 else bins0).
  assert (Hlen : (List.length bins <= 1)%nat).
  { unfold bins. destruct (_ && _); [| lia].
    pose proof (unique_floats_length bins0). lia. }
  clearbody bins. destruct bins as [| b0 [| b1 br]]; [reflexivity | | simpl in Hlen; lia].
  cbv zeta. destruct xs as [| x r]; [congruence |].
  simpl combine. simpl existsb.
  replace (float_is_nan x || _ || _) with true; [reflexivity |].
  destruct (PrimFloat.eqb x b0); simpl; [rewrite orb_true_r; reflexivity |].
  unfold searchsorted_left. simpl. destruct (PrimFloat.ltb b0 x); simpl;
    rewrite ?orb_true_r; reflexivity.
Qed.

Lemma bin_columns_fail (limit : Z) (q : pyval) (df : dataset) (c : string) (col : column) :
  In (c, col) df -> limit < Z.of_nat (unique_count col) ->
  is_ok (qcut_column q col) = false ->
  is_ok (bin_columns limit q df) = false.
Proof.
  induction df as [| [c' col'] rest IH]; simpl; intros Hin Hlt Hq; [contradiction |].
  destruct Hin as [Heq | Hin].
  - inversion Heq; subst. apply Z.ltb_lt in Hlt. rewrite Hlt.
    destruct (qcut_column q col); [discriminate | reflexivity].
  - specialize (IH Hin Hlt Hq).
    destruct (limit <? Z.of_nat (unique_count col')).
    + destruct (qcut_column q col'); simpl; [| reflexivity].
      destruct (bin_columns limit q rest) as [[? ?] |]; [discriminate | reflexivity].
    + destruct (bin_columns limit q rest) as [[? ?] |]; [discriminate | reflexivity].
Qed.

(** With [privbayes_bins <= 0], [PrivBayes.fit] raises as soon as some
    non-empty column has more than [privbayes_limit] distinct values. *)
Theorem privbayes_fit_nonpositive_bins (st : adapter) (df df1 : dataset) (st1 : adapter)
  (z : Z) (c : string) (col : column) :
  slide st df = Ok (df1, st1) ->
  attr_value st "privbayes_bins" = PyInt z -> z <= 0 ->
  In (c, col) df1 -> int_attr st "privbayes_limit" < Z.of_nat (unique_count col) ->
  col_values col <> [] ->
  is_ok (privbayes_fit st df) = false.
Proof.
  intros Hs Hz Hle Hin Hlt Hne.
  destruct (slide_attr_value _ _ _ _ "privbayes_bins" Hs) as (Hq & _ & _).
  destruct (slide_attr_value _ _ _ _ "privbayes_limit" Hs) as (_ & Hl & _).
  unfold privbayes_fit. rewrite Hs. simpl.
  pose proof (bin_columns_fail (int_attr st1 "privbayes_limit") (attr_value st1 "privbayes_bins")
                df1 c col Hin) as Hf.
  rewrite Hl, Hq, Hz in Hf. rewrite Hq, Hz, Hl.
  assert (Hqc : is_ok (qcut_column (PyInt z) col) = false).
  { unfold qcut_column. pose proof (qcut_mid_nonpos z col Hle Hne) as Hm.
    destruct (qcut_mid z col); [discriminate | reflexivity]. }
  specialize (Hf Hlt Hqc).
  destruct (bin_columns _ _ df1) as [[? ?] |]; [discriminate | reflexivity].
Qed.

Lemma unslide_after_slide_witness :
  let st := mk_adapter MSTSynthesizer 1.0%float
              [("slide_range", PyBool true); ("thresh", PyFloat 0.05)] None None in
  let df := [("a", IntCol [3; 5]); ("b", FloatCol ([0.2; 0.9])%float)] in
  exists df1 st1,
    slide st df = Ok (df1, st1) /\ NoDup (columns df) /\
    unslide st1 df1
      = Ok (if bool_attr st "slide_range"
            then map (fun '(c, col) => (c, roundtrip_column col)) df else df).
Proof.
  intros st df.
  pose (r := match slide st df with Ok r => r | Err _ _ => (df, st) end).
  assert (Hs : slide st df = Ok (fst r, snd r)) by (vm_compute; reflexivity).
  assert (Hnd : NoDup (columns df)) by (simpl; repeat constructor; simpl; intuition discriminate).
  exists (fst r), (snd r). split; [exact Hs |]. split; [exact Hnd |].
  exact (unslide_after_slide _ _ _ _ Hs Hnd).
Defined.


Lemma gem_sample_after_fit_witness :
  let st := mk_adapter GEMSynthesizer 1.0%float
              [("thresh", PyFloat 0.6); ("slide_range", PyBool true); ("T", PyInt 100)] None None in
  let df := [("a", IntCol [1; 1; 1; 2])] in
  let t := mk_transformer true true 0.0%float [Some 2] 1 in
  let env := mk_sample_env (fun _ => Ok []) [] (fun _ => []) in
  exists st' calls,
    kind st = GEMSynthesizer /\
    gem_fit st df (TransformerObj t) t None (fun _ => [("a", IntCol [0; 1])]) = Ok (st', calls) /\
    (bool_attr st "slide_range" = true ->
     exists df1 tr, slide_range_forward df = Ok (df1, tr) /\
       sample st' env 3 = Ok (slide_range_backward [("a", IntCol [0; 1])] tr)) /\
    (bool_attr st "slide_range" = false -> sample st' env 3 = Ok [("a", IntCol [0; 1])]).
Proof.
  intros st df t env.
  pose (r := match gem_fit st df (TransformerObj t) t None (fun _ => [("a", IntCol [0; 1])]) with
             | Ok r => r | Err _ _ => (st, []) end).
  assert (Hf : gem_fit st df (TransformerObj t) t None (fun _ => [("a", IntCol [0; 1])])
               = Ok (fst r, snd r)) by (vm_compute; reflexivity).
  exists (fst r), (snd r). split; [reflexivity |]. split; [exact Hf |].
  exact (gem_sample_after_fit st df _ t None _ (fst r) (snd r) env 3 eq_refl Hf).
Defined.

Lemma patectgan_fit_budget_witness :
  exists st df1 st1,
    construct PATECTGAN [("epsilon", PyFloat 2.0); ("slide_range", PyBool true)] = Ok st /\
    slide st [("a", IntCol [3; 4; 5]); ("b", FloatCol ([0.5; 0.25])%float)] = Ok (df1, st1) /\
    exists pf,
      (arg [("epsilon", PyFloat 2.0); ("slide_range", PyBool true)] "preprocess_factor"
         = PyNone -> pf = 0.05%float) /\
      patectgan_fit st [("a", IntCol [3; 4; 5]); ("b", FloatCol ([0.5; 0.25])%float)]
        = Ok (st1, [PateFit df1
                      (map fst (filter (fun '(_, col) =>
                         PrimFloat.ltb (distinct_ratio col) (float_attr st "thresh")) df1))
                      (map fst (filter (fun '(_, col) =>
                         negb (PrimFloat.ltb (distinct_ratio col) (float_attr st "thresh"))) df1))
                      (PrimFloat.mul pf (epsilon st))]).
Proof.
  pose (st := match construct PATECTGAN [("epsilon", PyFloat 2.0); ("slide_range", PyBool true)]
              with Ok st => st | Err _ _ => mk_adapter PATECTGAN 0.0%float [] None None end).
  assert (Hc : construct PATECTGAN [("epsilon", PyFloat 2.0); ("slide_range", PyBool true)]
               = Ok st) by (vm_compute; reflexivity).
  pose (r := match slide st [("a", IntCol [3; 4; 5]); ("b", FloatCol ([0.5; 0.25])%float)]
             with Ok r => r | Err _ _ => ([], st) end).
  assert (Hs : slide st [("a", IntCol [3; 4; 5]); ("b", FloatCol ([0.5; 0.25])%float)]
               = Ok (fst r, snd r)) by (vm_compute; reflexivity).
  exists st, (fst r), (snd r). split; [exact Hc |]. split; [exact Hs |].
  exact (patectgan_fit_budget _ _ _ _ _ Hc Hs).
Defined.

Lemma null_column_rejected_witness :
  let st := mk_adapter AIMSynthesizer 1.0%float
              [("slide_range", PyBool true); ("thresh", PyFloat 0.5)] None None in
  let df := [("a", IntCol [1; 1; 1]); ("b", FloatCol [PrimFloat.nan; PrimFloat.nan])] in
  In ("b", FloatCol [PrimFloat.nan; PrimFloat.nan]) df /\
  count (FloatCol [PrimFloat.nan; PrimFloat.nan]) = 0%nat /\
  mst_fit st df = Err ValueError mst_msg /\
  aim_fit st df = Err ValueError aim_msg /\
  (forall targ created pe trained,
     gem_fit st df targ created pe trained = Err ValueError gem_msg) /\
  (forall t, In "b" (snd (categorical_continuous t df))).
Proof.
  intros st df.
  assert (Hin : In ("b", FloatCol [PrimFloat.nan; PrimFloat.nan]) df) by (right; left; reflexivity).
  assert (H0 : count (FloatCol [PrimFloat.nan; PrimFloat.nan]) = 0%nat) by (vm_compute; reflexivity).
  split; [exact Hin |]. split; [exact H0 |].
  exact (null_column_rejected st df _ _ Hin H0).
Defined.

Lemma categorical_thresh_monotone_witness :
  let st1 := mk_adapter MSTSynthesizer 1.0%float [("thresh", PyFloat 0.05)] None None in
  let st2 := mk_adapter MSTSynthesizer 1.0%float [("thresh", PyFloat 0.7)] None None in
  let df := [("a", IntCol [1; 1; 1; 2]); ("b", IntCol [1; 2; 3; 3])] in
  PrimFloat.leb 0.05 0.7 = true /\
  incl (fst (categorical_continuous 0.05 df)) (fst (categorical_continuous 0.7 df)) /\
  incl (snd (categorical_continuous 0.7 df)) (snd (categorical_continuous 0.05 df)) /\
  (float_attr st1 "thresh" = 0.05%float -> float_attr st2 "thresh" = 0.7%float ->
   categorical_check st1 df = true -> categorical_check st2 df = true).
Proof.
  intros st1 st2 df.
  assert (Hle : PrimFloat.leb 0.05 0.7 = true) by (vm_compute; reflexivity).
  split; [exact Hle |].
  exact (categorical_thresh_monotone 0.05 0.7 df st1 st2 Hle).
Defined.


Lemma privbayes_fit_nonpositive_bins_witness :
  let st := mk_adapter PrivBayes 1.0%float
              [("slide_range", PyBool false); ("thresh", PyFloat 0.5);
               ("privbayes_limit", PyInt 20); ("privbayes_bins", PyInt 0);
               ("temp_files_dir", PyStr "temp"); ("seed", PyInt 0)] None None in
  let df := [("a", IntCol (map Z.of_nat (seq 1 30)))] in
  slide st df = Ok (df, st) /\ attr_value st "privbayes_bins" = PyInt 0 /\
  In ("a", IntCol (map Z.of_nat (seq 1 30))) df /\
  int_attr st "privbayes_limit" < Z.of_nat (unique_count (IntCol (map Z.of_nat (seq 1 30)))) /\
  is_ok (privbayes_fit st df) = false.
Proof.
  intros st df.
  assert (Hs : slide st df = Ok (df, st)) by reflexivity.
  assert (Hz : attr_value st "privbayes_bins" = PyInt 0) by reflexivity.
  assert (Hin : In ("a", IntCol (map Z.of_nat (seq 1 30))) df) by (left; reflexivity).
  assert (Hlt : int_attr st "privbayes_limit"
                < Z.of_nat (unique_count (IntCol (map Z.of_nat (seq 1 30)))))
    by (vm_compute; reflexivity).
  split; [exact Hs |]. split; [exact Hz |]. split; [exact Hin |]. split; [exact Hlt |].
  apply (privbayes_fit_nonpositive_bins st df df st 0 "a" _ Hs Hz (Z.le_refl 0) Hin Hlt).
  discriminate.
Defined.

